(** * Lintify: heuristic formatter and README generator

    A shallow embedding of [src/utils/formatter.ts] and
    [src/utils/readme-generator.ts], and the properties of their
    specification.

    JavaScript strings are sequences of UTF-16 code units; they are modelled
    as lists of code units ([N]), of any length (the length limit of an
    engine is not modelled).  Exceptions are explicit: a computation that can
    throw returns a [Completion].  The few places where a run would touch
    the built-in objects of the host (properties inherited from
    [Object.prototype]) and leave what is modelled here return [None].

    [String.prototype.toLowerCase] is the Unicode case mapping of the host:
    the program is modelled for any function in its place, and the examples
    run with the mapping of ASCII strings.  The archive reader (JSZip) and
    the browser's [File] are inputs: what they resolve to is part of the
    uploaded file's description. *)

From Stdlib Require Import String Ascii DecimalString.
From Stdlib Require Import List ZArith NArith Lia Bool Permutation.
Import ListNotations.

Set Implicit Arguments.

(** ** JavaScript strings and the string primitives the program uses *)

Module JS.

Definition jsstring := list N.

(** An ASCII literal as a JavaScript string. *)
Definition js (s : string) : jsstring :=
  map N_of_ascii (list_ascii_of_string s).

Definition LF : N := 10.
Definition SPACE : N := 32.
Definition DOT : N := 46.
Definition SLASH : N := 47.
Definition COLON : N := 58.
Definition LBRACE : N := 123.
Definition RBRACE : N := 125.

Fixpoint eqb (s t : jsstring) : bool :=
  match s, t with
  | [], [] => true
  | c :: s', d :: t' => N.eqb c d && eqb s' t'
  | _, _ => false
  end.

(** ECMAScript WhiteSpace and LineTerminator code points, the ones
    [String.prototype.trim] strips. *)
Definition isWhiteSpace (c : N) : bool :=
  (   N.eqb c 9 || N.eqb c 10 || N.eqb c 11 || N.eqb c 12 || N.eqb c 13
   || N.eqb c 32 || N.eqb c 160 || N.eqb c 5760
   || (N.leb 8192 c && N.leb c 8202)
   || N.eqb c 8232 || N.eqb c 8233 || N.eqb c 8239 || N.eqb c 8287
   || N.eqb c 12288 || N.eqb c 65279)%bool.

Fixpoint trimStart (s : jsstring) : jsstring :=
  match s with
  | [] => []
  | c :: s' => if isWhiteSpace c then trimStart s' else s
  end.

Fixpoint trimEnd (s : jsstring) : jsstring :=
  match s with
  | [] => []
  | c :: s' =>
      match trimEnd s' with
      | [] => if isWhiteSpace c then [] else [c]
      | t => c :: t
      end
  end.

Definition trim (s : jsstring) : jsstring := trimEnd (trimStart s).

(** [s.split(sep)] for a separator of one code unit: never the empty list. *)
Fixpoint split (sep : N) (s : jsstring) : list jsstring :=
  match s with
  | [] => [[]]
  | c :: s' =>
      if N.eqb c sep then [] :: split sep s'
      else match split sep s' with
           | [] => [[c]]
           | piece :: pieces => (c :: piece) :: pieces
           end
  end.

Fixpoint join (sep : jsstring) (l : list jsstring) : jsstring :=
  match l with
  | [] => []
  | [x] => x
  | x :: rest => x ++ sep ++ join sep rest
  end.

(** [a.pop()] read as a value: the last element, [undefined] on []. *)
Definition pop (A : Type) (l : list A) : option A :=
  match rev l with
  | [] => None
  | x :: _ => Some x
  end.

Fixpoint startsWith (p s : jsstring) : bool :=
  match p, s with
  | [], _ => true
  | c :: p', d :: s' => N.eqb c d && startsWith p' s'
  | _ :: _, [] => false
  end.

Fixpoint includes (p s : jsstring) : bool :=
  startsWith p s ||
  match s with
  | [] => false
  | _ :: s' => includes p s'
  end.

Definition endsWith (p s : jsstring) : bool :=
  startsWith (rev p) (rev s).

(** [s.match(/c/g)] for the pattern of one literal code unit: the matches,
    or [null] when there is none. *)
Definition match_g (c : N) (s : jsstring) : option (list jsstring) :=
  match filter (N.eqb c) s with
  | [] => None
  | m => Some (map (fun d => [d]) m)
  end.

(** [x || []] on the result of [match]. *)
Definition or_empty (m : option (list jsstring)) : list jsstring :=
  match m with
  | Some l => l
  | None => []
  end.

(** [n.toString()] of a non-negative integer. *)
Definition ofN (n : N) : jsstring :=
  js (NilZero.string_of_uint (N.to_uint n)).

Inductive Error : Type :=
| TypeError
| RangeError
| ErrorMsg (message : jsstring).

Inductive Completion (A : Type) : Type :=
| Normal (a : A)
| Throw (e : Error).
Arguments Normal {A} a.
Arguments Throw {A} e.

Definition bind (A B : Type) (m : Completion A) (k : A -> Completion B)
  : Completion B :=
  match m with
  | Normal a => k a
  | Throw e => Throw e
  end.

Fixpoint mapM (A B : Type) (f : A -> Completion B) (l : list A)
  : Completion (list B) :=
  match l with
  | [] => Normal []
  | x :: l' =>
      bind (f x) (fun y => bind (mapM f l') (fun ys => Normal (y :: ys)))
  end.

(** [try { body } catch (error) { handler }]. *)
Definition try_catch (A : Type) (body : Completion A) (handler : Error -> A) : A :=
  match body with
  | Normal a => a
  | Throw e => handler e
  end.

(** [s.repeat(count)]: a RangeError on a negative count. *)
Definition repeat (s : jsstring) (count : Z) : Completion jsstring :=
  if (count <? 0)%Z then Throw RangeError
  else Normal (concat (List.repeat s (Z.to_nat count))).

End JS.

Notation "x <- m ;; k" := (JS.bind m (fun x => k))
  (at level 61, m at next level, right associativity).

(** ** Plain objects used as lookup tables

    [table[key]] on an object literal finds the literal's own properties
    first and then the properties every object inherits from
    [Object.prototype]. *)

Module Obj.
Import JS.

Inductive PrototypeProperty : Type :=
| OP_constructor
| OP_defineGetter
| OP_defineSetter
| OP_hasOwnProperty
| OP_lookupGetter
| OP_lookupSetter
| OP_isPrototypeOf
| OP_propertyIsEnumerable
| OP_toString
| OP_valueOf
| OP_proto
| OP_toLocaleString.

(** The property names of [Object.prototype]. *)
Definition prototype_properties : list (jsstring * PrototypeProperty) :=
  [ (js "constructor", OP_constructor);
    (js "__defineGetter__", OP_defineGetter);
    (js "__defineSetter__", OP_defineSetter);
    (js "hasOwnProperty", OP_hasOwnProperty);
    (js "__lookupGetter__", OP_lookupGetter);
    (js "__lookupSetter__", OP_lookupSetter);
    (js "isPrototypeOf", OP_isPrototypeOf);
    (js "propertyIsEnumerable", OP_propertyIsEnumerable);
    (js "toString", OP_toString);
    (js "valueOf", OP_valueOf);
    (js "__proto__", OP_proto);
    (js "toLocaleString", OP_toLocaleString) ].

Fixpoint assoc (A : Type) (key : jsstring) (l : list (jsstring * A)) : option A :=
  match l with
  | [] => None
  | (k, v) :: l' => if JS.eqb k key then Some v else assoc key l'
  end.

Inductive Lookup (A : Type) : Type :=
| Own (a : A)
| Inherited (p : PrototypeProperty)
| Undefined.
Arguments Own {A} a.
Arguments Inherited {A} p.
Arguments Undefined {A}.

(** [table[key]] for an object literal with the own properties [table]. *)
Definition get (A : Type) (table : list (jsstring * A)) (key : jsstring) : Lookup A :=
  match assoc key table with
  | Some a => Own a
  | None =>
      match assoc key prototype_properties with
      | Some p => Inherited p
      | None => Undefined
      end
  end.

End Obj.

(** ** src/utils/formatter.ts *)

Module Formatter.
Import JS.

(** What a call [formatter(content)] evaluates to: a primitive string, or
    the String wrapper object [Object(content)] builds. *)
Inductive Formatted : Type :=
| Str (s : jsstring)
| StringObject (s : jsstring).

Record FileInfo : Type := mkFileInfo {
  name : jsstring;
  content : jsstring;
  path : jsstring;
  formatted : Formatted
}.

Definition formatJavaScript (code : jsstring) : jsstring :=
  try_catch
    (lines <-
       mapM (fun line =>
               let indentLevel :=
                 (Z.of_nat (length (or_empty (match_g LBRACE line)))
                  - Z.of_nat (length (or_empty (match_g RBRACE line))))%Z in
               indent <- JS.repeat (js "  ") (Z.max 0 indentLevel) ;;
               Normal (indent ++ line))
            (filter (fun line => Nat.ltb 0 (length line))
               (map trim (split LF code))) ;;
     Normal (join [LF] lines))
    (fun _ => code).

Definition formatJava (code : jsstring) : jsstring :=
  try_catch
    (lines <-
       mapM (fun line =>
               let indentLevel :=
                 (Z.of_nat (length (or_empty (match_g LBRACE line)))
                  - Z.of_nat (length (or_empty (match_g RBRACE line))))%Z in
               indent <- JS.repeat (js "    ") (Z.max 0 indentLevel) ;;
               Normal (indent ++ line))
            (filter (fun line => Nat.ltb 0 (length line))
               (map trim (split LF code))) ;;
     Normal (join [LF] lines))
    (fun _ => code).

Definition formatPython (code : jsstring) : jsstring :=
  try_catch
    (lines <-
       mapM (fun line =>
               let indentLevel :=
                 Z.of_nat (length (or_empty (match_g COLON line))) in
               indent <- JS.repeat (js "    ") (Z.max 0 indentLevel) ;;
               Normal (indent ++ line))
            (filter (fun line => Nat.ltb 0 (length line))
               (map trim (split LF code))) ;;
     Normal (join [LF] lines))
    (fun _ => code).

Definition formatC (code : jsstring) : jsstring :=
  try_catch
    (lines <-
       mapM (fun line =>
               let indentLevel :=
                 (Z.of_nat (length (or_empty (match_g LBRACE line)))
                  - Z.of_nat (length (or_empty (match_g RBRACE line))))%Z in
               indent <- JS.repeat (js "    ") (Z.max 0 indentLevel) ;;
               Normal (indent ++ line))
            (filter (fun line => Nat.ltb 0 (length line))
               (map trim (split LF code))) ;;
     Normal (join [LF] lines))
    (fun _ => code).

(** The value [getFormatter] returns: one of the functions of this file, or
    whatever [formatters[ext]] found on [Object.prototype]. *)
Inductive Routine : Type :=
| Fn (f : jsstring -> jsstring)
| Builtin (p : Obj.PrototypeProperty).

Definition formatters : list (jsstring * (jsstring -> jsstring)) :=
  [ (js "js", formatJavaScript);
    (js "jsx", formatJavaScript);
    (js "ts", formatJavaScript);
    (js "tsx", formatJavaScript);
    (js "java", formatJava);
    (js "py", formatPython);
    (js "c", formatC);
    (js "cpp", formatC);
    (js "h", formatC);
    (js "hpp", formatC) ].

Section WithLowerCase.

(** [String.prototype.toLowerCase], the Unicode case mapping of the host. *)
Variable toLowerCase : jsstring -> jsstring.

(** [filename.split('.').pop()?.toLowerCase() || ''] *)
Definition extension (filename : jsstring) : jsstring :=
  match pop (split DOT filename) with
  | Some last =>
      match toLowerCase last with
      | [] => js ""
      | ext => ext
      end
  | None => js ""
  end.

Definition getFormatter (filename : jsstring) : Routine :=
  let ext := extension filename in
  match Obj.get formatters ext with
  | Obj.Own f => Fn f
  | Obj.Inherited p => Builtin p
  | Obj.Undefined => Fn (fun code => code)
  end.

(** The call [formatter(content)].  [Object(content)] wraps the string;
    [Object.prototype] is not callable.  The other inherited properties have
    an upper-case letter in their name, which no result of [toLowerCase]
    has: those calls are left out of the model. *)
Definition call (formatter : Routine) (content : jsstring)
  : option (Completion Formatted) :=
  match formatter with
  | Fn f => Some (Normal (Str (f content)))
  | Builtin Obj.OP_constructor => Some (Normal (StringObject content))
  | Builtin Obj.OP_proto => Some (Throw TypeError)
  | Builtin _ => None
  end.

(** One entry of [zipContent.files]: the [dir] flag and the text
    [async('string')] resolves to, or the error it rejects with. *)
Record ZipObject : Type := mkZipObject {
  dir : bool;
  async_string : Completion jsstring
}.

(** An uploaded [File]: its name, what [file.text()] resolves to, and what
    [JSZip.loadAsync(file)] resolves to, as [Object.entries] lists
    [zipContent.files]; [Throw] when the promise rejects. *)
Record File : Type := mkFile {
  file_name : jsstring;
  file_text : Completion jsstring;
  loadAsync : Completion (list (jsstring * ZipObject))
}.

(** [path.split('/').pop() || ''] *)
Definition basename (path : jsstring) : jsstring :=
  match pop (split SLASH path) with
  | Some [] => js ""
  | Some last => last
  | None => js ""
  end.

(** The body of the [for ... of Object.entries(zipContent.files)] loop,
    [files] being the array built so far. *)
Fixpoint zipLoop (entries : list (jsstring * ZipObject)) (files : list FileInfo)
  : option (Completion (list FileInfo)) :=
  match entries with
  | [] => Some (Normal files)
  | (path, zipFile) :: rest =>
      if negb (dir zipFile) then
        match async_string zipFile with
        | Throw e => Some (Throw e)
        | Normal content =>
            let name := basename path in
            let formatter := getFormatter name in
            match call formatter content with
            | None => None
            | Some (Throw e) => Some (Throw e)
            | Some (Normal formatted) =>
                zipLoop rest (files ++ [mkFileInfo name content path formatted])
            end
        end
      else zipLoop rest files
  end.

Definition formatCode (file : File) : option (Completion (list FileInfo)) :=
  if endsWith (js ".zip") (file_name file) then
    match
      match loadAsync file with
      | Throw e => Some (Throw e)
      | Normal entries => zipLoop entries []
      end
    with
    | None => None
    | Some (Normal files) => Some (Normal files)
    | Some (Throw _) => Some (Throw (ErrorMsg (js "Failed to process ZIP file")))
    end
  else
    match file_text file with
    | Throw e => Some (Throw e)
    | Normal content =>
        let formatter := getFormatter (file_name file) in
        match call formatter content with
        | None => None
        | Some (Throw e) => Some (Throw e)
        | Some (Normal formatted) =>
            Some (Normal [mkFileInfo (file_name file) content (file_name file)
                            formatted])
        end
    end.

End WithLowerCase.

(** [toLowerCase] on strings of ASCII code units, where it maps [A]-[Z] to
    [a]-[z] and leaves the rest. *)
Definition toLowerCaseASCII (s : jsstring) : jsstring :=
  map (fun c => if (N.leb 65 c && N.leb c 90)%bool then (c + 32)%N else c) s.

End Formatter.

(** ** src/utils/readme-generator.ts *)

Module ReadmeGenerator.
Import JS.

Record FileInfo : Type := mkFileInfo {
  name : jsstring;
  content : jsstring;
  path : jsstring
}.

(** The values the file tree holds. *)
#[local] Set Warnings "-register-all".
Inductive Value : Type :=
| VStr (s : jsstring)
| VNum (n : N)
| VBuiltin (p : Obj.PrototypeProperty)
| VObj (props : list (jsstring * Value)).

Definition truthy (v : Value) : bool :=
  match v with
  | VStr [] => false
  | VStr _ => true
  | VNum n => negb (N.eqb n 0)
  | VBuiltin _ => true
  | VObj _ => true
  end.

(** *** Own properties in enumeration order

    [Object.entries] and [Object.keys] list the array-index keys first, in
    ascending order, and then the other keys in the order of creation.  A
    property list is kept in that order. *)

Definition isDigit (c : N) : bool := N.leb 48 c && N.leb c 57.

Definition arrayIndex (key : jsstring) : option N :=
  match key with
  | [] => None
  | c :: rest =>
      if forallb isDigit key
         && negb (N.eqb c 48 && Nat.ltb 0 (length rest))
      then
        let v := fold_left (fun acc d => (acc * 10 + (d - 48))%N) key 0%N in
        if N.ltb v 4294967295 then Some v else None
      else None
  end.

Fixpoint hasOwn (A : Type) (key : jsstring) (props : list (jsstring * A)) : bool :=
  match props with
  | [] => false
  | (k, _) :: props' => JS.eqb k key || hasOwn key props'
  end.

Fixpoint replace (A : Type) (key : jsstring) (v : A) (props : list (jsstring * A))
  : list (jsstring * A) :=
  match props with
  | [] => []
  | (k, w) :: props' =>
      if JS.eqb k key then (k, v) :: props' else (k, w) :: replace key v props'
  end.

Fixpoint insertIndex (A : Type) (i : N) (key : jsstring) (v : A)
  (props : list (jsstring * A)) : list (jsstring * A) :=
  match props with
  | [] => [(key, v)]
  | (k, w) :: props' =>
      match arrayIndex k with
      | Some j => if N.ltb j i then (k, w) :: insertIndex i key v props'
                  else (key, v) :: props
      | None => (key, v) :: props
      end
  end.

(** [obj[key] = v] on own data properties. *)
Definition set (A : Type) (key : jsstring) (v : A) (props : list (jsstring * A))
  : list (jsstring * A) :=
  if hasOwn key props then replace key v props
  else match arrayIndex key with
       | Some i => insertIndex i key v props
       | None => props ++ [(key, v)]
       end.

Definition isPrototypeName (key : jsstring) : bool :=
  match Obj.assoc key Obj.prototype_properties with
  | Some _ => true
  | None => false
  end.

Definition typeMap : list (jsstring * jsstring) :=
  [ (js "js", js "JavaScript");
    (js "jsx", js "React JSX");
    (js "ts", js "TypeScript");
    (js "tsx", js "React TypeScript");
    (js "css", js "CSS");
    (js "scss", js "SCSS");
    (js "html", js "HTML");
    (js "json", js "JSON");
    (js "md", js "Markdown");
    (js "py", js "Python");
    (js "java", js "Java");
    (js "cpp", js "C++");
    (js "c", js "C");
    (js "go", js "Go");
    (js "rs", js "Rust");
    (js "php", js "PHP");
    (js "rb", js "Ruby") ].

Definition QUOTE : N := 34.
Definition BACKTICK : N := 96.

Definition mainFilePatterns : list jsstring :=
  [ js "index.ts"; js "index.js"; js "main.py"; js "app.py";
    js "server.js"; js "app.js"; js "index.html" ].

(** [`${v}`] for the values whose string is fixed by the language. *)
Definition toString (v : Value) : option jsstring :=
  match v with
  | VStr s => Some s
  | VNum n => Some (ofN n)
  | VObj _ => Some (js "[object Object]")
  | VBuiltin _ => None
  end.

(** [value.type] *)
Definition typeOf (v : Value) : option Value :=
  match v with
  | VObj props => Obj.assoc (js "type") props
  | _ => None
  end.

Definition connectorLast : jsstring := [9492; 9472; 9472; 32]%N.
Definition connectorMid : jsstring := [9500; 9472; 9472; 32]%N.
Definition prefixLast : jsstring := js "    ".
Definition prefixMid : jsstring := [9474; 32; 32; 32]%N.

Fixpoint generateTreeMarkdown (tree : Value) (prefix : jsstring) {struct tree}
  : option jsstring :=
  match tree with
  | VObj props =>
      (fix forEach (entries : list (jsstring * Value)) : option jsstring :=
         match entries with
         | [] => Some []
         | (name, value) :: entries' =>
             let isLast := match entries' with [] => true | _ => false end in
             let connector := if isLast then connectorLast else connectorMid in
             let newPrefix := prefix ++ (if isLast then prefixLast else prefixMid) in
             let hasType :=
               match typeOf value with Some t => truthy t | None => false end in
             match
               (if hasType then
                  match typeOf value with
                  | Some t =>
                      match toString t with
                      | Some s => Some (js " (" ++ s ++ js ")" ++ [LF])
                      | None => None
                      end
                  | None => None
                  end
                else Some [LF]),
               (if hasType then Some []
                else match value with
                     | VObj _ => generateTreeMarkdown value newPrefix
                     | _ => None
                     end),
               forEach entries'
             with
             | Some label, Some below, Some others =>
                 Some (prefix ++ connector ++ name ++ label ++ below ++ others)
             | _, _, _ => None
             end
         end) props
  | _ => None
  end.

Section WithLowerCase.

Variable toLowerCase : jsstring -> jsstring.

(** [typeMap[ext] || 'Plain text'] *)
Definition getFileType (filename : jsstring) : Value :=
  let ext := Formatter.extension toLowerCase filename in
  match Obj.get typeMap ext with
  | Obj.Own label => VStr label
  | Obj.Inherited p => VBuiltin p
  | Obj.Undefined => VStr (js "Plain text")
  end.

(** The inner [parts.forEach] of [buildFileTree] from the object [current]
    on, for the remaining [parts]; the result is [current] after the walk.
    A primitive cannot take a property (the module is strict code), and a
    path segment with the name of a property of [Object.prototype] reaches
    the built-in objects. *)
Fixpoint insertPath (current : Value) (parts : list jsstring) (leaf : jsstring -> Value)
  {struct parts} : option (Completion Value) :=
  match parts with
  | [] => Some (Normal current)
  | part :: rest =>
      if isPrototypeName part then None
      else
        match current with
        | VBuiltin _ => None
        | VStr _ | VNum _ => Some (Throw TypeError)
        | VObj props =>
            match rest with
            | [] => Some (Normal (VObj (set part (leaf part) props)))
            | _ :: _ =>
                let child :=
                  match Obj.assoc part props with
                  | Some v => if truthy v then v else VObj []
                  | None => VObj []
                  end in
                match insertPath child rest leaf with
                | Some (Normal child') => Some (Normal (VObj (set part child' props)))
                | other => other
                end
            end
        end
  end.

Fixpoint buildFileTreeFrom (tree : Value) (files : list FileInfo)
  : option (Completion Value) :=
  match files with
  | [] => Some (Normal tree)
  | file :: files' =>
      let parts := split SLASH (path file) in
      let leaf part :=
        VObj [ (js "type", getFileType part);
               (js "size", VNum (N.of_nat (length (content file)))) ] in
      match insertPath tree parts leaf with
      | Some (Normal tree') => buildFileTreeFrom tree' files'
      | other => other
      end
  end.

Definition buildFileTree (files : list FileInfo) : option (Completion Value) :=
  buildFileTreeFrom (VObj []) files.

Fixpoint analyzeCodebaseFrom (stats : list (jsstring * N)) (files : list FileInfo)
  : option (list (jsstring * N)) :=
  match files with
  | [] => Some stats
  | file :: files' =>
      match getFileType (name file) with
      | VStr type =>
          if isPrototypeName type then None
          else
            let count := match Obj.assoc type stats with
                         | Some n => n
                         | None => 0%N
                         end in
            analyzeCodebaseFrom (set type (count + 1)%N stats) files'
      | _ => None
      end
  end.

Definition analyzeCodebase (files : list FileInfo) : option (list (jsstring * N)) :=
  analyzeCodebaseFrom [] files.

Definition detectFrameworks (files : list FileInfo) : list jsstring :=
  let frameworks : list jsstring := [] in
  let allContent := join (js " ") (map (fun f => toLowerCase (content f)) files) in
  let packageJson :=
    match find (fun f => JS.eqb (name f) (js "package.json")) files with
    | Some f => content f
    | None => js ""
    end in
  let frameworks :=
    if includes ([QUOTE] ++ js "react" ++ [QUOTE]) packageJson
    then frameworks ++ [js "React"] else frameworks in
  let frameworks :=
    if includes ([QUOTE] ++ js "vue" ++ [QUOTE]) packageJson
    then frameworks ++ [js "Vue.js"] else frameworks in
  let frameworks :=
    if includes ([QUOTE] ++ js "@angular/core" ++ [QUOTE]) packageJson
    then frameworks ++ [js "Angular"] else frameworks in
  let frameworks :=
    if includes (js "django") allContent
    then frameworks ++ [js "Django"] else frameworks in
  let frameworks :=
    if includes (js "flask") allContent
    then frameworks ++ [js "Flask"] else frameworks in
  let frameworks :=
    if includes (js "express") allContent
    then frameworks ++ [js "Express.js"] else frameworks in
  let frameworks :=
    if includes (js "spring-boot") allContent
    then frameworks ++ [js "Spring Boot"] else frameworks in
  frameworks.

(** The [for (const pattern of mainFilePatterns)] loop. *)
Fixpoint findMainFileIn (patterns : list jsstring) (files : list FileInfo)
  : option FileInfo :=
  match patterns with
  | [] => None
  | pattern :: patterns' =>
      match find (fun f => JS.eqb (toLowerCase (name f)) pattern) files with
      | Some mainFile => Some mainFile
      | None => findMainFileIn patterns' files
      end
  end.

Definition findMainFile (files : list FileInfo) : option FileInfo :=
  findMainFileIn mainFilePatterns files.

(** The interpolated expressions of the template, one definition each. *)

Definition statsBreakdown (stats : list (jsstring * N)) : jsstring :=
  join [LF]
    (map (fun '(type, count) =>
            js "- " ++ type ++ js ": " ++ ofN count ++ js " file"
            ++ (if N.ltb 1 count then js "s" else js ""))
         stats).

Definition technologiesSection (frameworks : list jsstring) : jsstring :=
  if Nat.eqb (length frameworks) 0 then js ""
  else
    js "## " ++ [55357; 57056]%N ++ js " Technologies Used" ++ [LF]
    ++ js "This project uses the following frameworks/libraries:" ++ [LF]
    ++ join [LF] (map (fun f => js "- " ++ f) frameworks).

Definition mainEntrySection (mainFile : option FileInfo) : jsstring :=
  match mainFile with
  | Some mainFile =>
      js "The main entry point is `" ++ path mainFile ++ js "`:" ++ [LF]
      ++ [LF]
      ++ js "```"
      ++ match pop (split DOT (name mainFile)) with
         | Some ext => ext
         | None => js "undefined"
         end
      ++ [LF]
      ++ join [LF] (firstn 10 (split LF (content mainFile)))
      ++ (if Nat.ltb 10 (length (split LF (content mainFile)))
          then [LF] ++ js "..." else js "")
      ++ [LF]
      ++ js "```"
  | None => js "No clear entry point detected."
  end.

Definition structureExplanation (tree : list (jsstring * Value)) : jsstring :=
  join [LF; LF]
    (filter (fun s => Nat.ltb 0 (length s))
       (map (fun '(dir, content) =>
               match content with
               | VObj props =>
                   if match typeOf content with
                      | Some t => truthy t
                      | None => false
                      end
                   then js ""
                   else
                     js "### /" ++ dir ++ [LF]
                     ++ js "Contains " ++ ofN (N.of_nat (length props))
                     ++ js " files/directories for " ++ toLowerCase dir
                     ++ js " related functionality."
               | _ => js ""
               end)
            tree)).

Definition configurationFiles (files : list FileInfo) : jsstring :=
  join [LF]
    (map (fun f =>
            js "- `" ++ path f ++ js "`: "
            ++ (if includes (js "package.json") (name f)
                then js "Project dependencies and scripts"
                else js "Configuration settings"))
       (filter (fun f => includes (js "config") (name f)
                         || includes (js ".rc") (name f)
                         || endsWith (js ".json") (name f))
          files)).

Definition unlines (lines : list jsstring) : jsstring :=
  concat (map (fun line => line ++ [LF]) lines).

Definition generateReadme (files : list FileInfo) : option (Completion jsstring) :=
  match buildFileTree files with
  | None => None
  | Some (Throw e) => Some (Throw e)
  | Some (Normal tree) =>
      match analyzeCodebase files,
            generateTreeMarkdown tree (js ""),
            tree
      with
      | Some stats, Some treeMarkdown, VObj entries =>
          let frameworks := detectFrameworks files in
          let mainFile := findMainFile files in
          Some (Normal (unlines
            [ js "# Project Documentation";
              js "";
              js "## " ++ [55357; 56513]%N ++ js " Project Structure";
              js "```";
              treeMarkdown;
              js "```";
              js "";
              js "## " ++ [55357; 56589]%N ++ js " Project Overview";
              js "This project contains " ++ ofN (N.of_nat (length files))
                ++ js " files across various technologies:";
              statsBreakdown stats;
              js "";
              technologiesSection frameworks;
              js "";
              js "## " ++ [55357; 56960]%N ++ js " Getting Started";
              js "1. Clone the repository";
              js "2. Install dependencies:";
              js "   ```bash";
              js "   npm install";
              js "   # or";
              js "   yarn install";
              js "   ```";
              js "3. Run the project:";
              js "   ```bash";
              js "   npm start";
              js "   # or";
              js "   yarn start";
              js "   ```";
              js "";
              js "## " ++ [55357; 56524]%N ++ js " Main Entry Point";
              mainEntrySection mainFile;
              js "";
              js "## " ++ [55357; 56538]%N ++ js " Project Structure Explanation";
              structureExplanation entries;
              js "";
              js "## " ++ [55357; 56615]%N ++ js " Configuration Files";
              configurationFiles files;
              js "";
              js "## " ++ [55357; 56481]%N ++ js " Additional Notes";
              js "- The project uses a "
                ++ (if Nat.eqb (length frameworks) 0 then js "custom stack"
                    else js "modern stack with " ++ join (js ", ") frameworks);
              js "- File organization follows "
                ++ (if existsb (fun f => includes (js "src/") (path f)) files
                    then js "a src-based" else js "a flat")
                ++ js " structure";
              js "- "
                ++ (if hasOwn (js "TypeScript") stats
                    then js "TypeScript is used for type safety"
                    else js "JavaScript is used as the primary language");
              js "";
              js "## " ++ [55358; 56605]%N ++ js " Contributing";
              js "1. Fork the repository";
              js "2. Create your feature branch";
              js "3. Commit your changes";
              js "4. Push to the branch";
              js "5. Create a new Pull Request";
              js "";
              js "## " ++ [55357; 56541]%N ++ js " License";
              js "This project is licensed under the terms specified in the LICENSE file, if present." ]))
      | _, _, _ => None
      end
  end.

End WithLowerCase.

End ReadmeGenerator.

(** ** The [App] component: [processFile]

    The state of the component that [processFile] writes is the pair of
    [isLoading] and [result].  The rest of the component is markup and the
    browser download. *)

Module App.
Import JS.

(** The [result] state: [{ readme?, formatted?, error? }]. *)
Record Result : Type := mkResult {
  readme : option jsstring;
  formatted : option (list (jsstring * Formatter.Formatted));
  error : option jsstring
}.

Record State : Type := mkState {
  isLoading : bool;
  result : option Result
}.

(** [f.formatted || f.content]: the empty string is falsy, an object is
    not. *)
Definition shown (f : Formatter.FileInfo) : Formatter.Formatted :=
  match Formatter.formatted f with
  | Formatter.Str [] => Formatter.Str (Formatter.content f)
  | v => v
  end.

(** [Object.fromEntries(entries)]: own data properties, a later entry
    replacing an earlier one with the same key. *)
Definition fromEntries (A : Type) (entries : list (jsstring * A))
  : list (jsstring * A) :=
  fold_left (fun obj entry => ReadmeGenerator.set (fst entry) (snd entry) obj)
    entries [].

(** A record of [formatCode] as [generateReadme] reads it. *)
Definition asFileInfo (f : Formatter.FileInfo) : ReadmeGenerator.FileInfo :=
  ReadmeGenerator.mkFileInfo (Formatter.name f) (Formatter.content f)
    (Formatter.path f).

Definition errorResult : Result :=
  mkResult None None (Some (js "Error processing file")).

Section WithLowerCase.

Variable toLowerCase : jsstring -> jsstring.

(** The [try] block: the result it sets, or what it throws. *)
Definition processFileBody (uploadedFile : Formatter.File)
  : option (Completion Result) :=
  match Formatter.formatCode toLowerCase uploadedFile with
  | None => None
  | Some (Throw e) => Some (Throw e)
  | Some (Normal files) =>
      if endsWith (js ".zip") (Formatter.file_name uploadedFile) then
        match ReadmeGenerator.generateReadme toLowerCase (map asFileInfo files) with
        | None => None
        | Some (Throw e) => Some (Throw e)
        | Some (Normal readme) =>
            Some (Normal
              (mkResult (Some readme)
                 (Some (fromEntries
                          (map (fun f => (Formatter.path f, shown f)) files)))
                 None))
        end
      else
        match files with
        | [] => Some (Throw TypeError)
        | first :: _ =>
            Some (Normal
              (mkResult None
                 (Some [(Formatter.file_name uploadedFile, shown first)])
                 None))
        end
  end.

(** [processFile]: the state it leaves, from the state it finds. *)
Definition processFile (uploadedFile : Formatter.File) (state : State)
  : option State :=
  let state := mkState true (result state) in
  match processFileBody uploadedFile with
  | None => None
  | Some completion =>
      let state :=
        match completion with
        | Normal r => mkState (isLoading state) (Some r)
        | Throw _ => mkState (isLoading state) (Some errorResult)
        end in
      Some (mkState false (result state))
  end.

End WithLowerCase.

End App.

(** ** The specification's wording of the formatter *)

Module Spec.
Import JS.

(** The number of occurrences of the character [c] in [line]. *)
Definition count (c : N) (line : jsstring) : nat := count_occ N.eq_dec line c.

(** [indentUnit] repeated [n] times. *)
Definition indent (indentUnit : jsstring) (n : nat) : jsstring :=
  concat (List.repeat indentUnit n).

Definition isEmpty (line : jsstring) : bool :=
  match line with
  | [] => true
  | _ :: _ => false
  end.

(** A line that consists of white space only. *)
Definition blank (line : jsstring) : bool := forallb isWhiteSpace line.

(** Count of [{] minus count of [}], clamped at 0. *)
Definition braceLevel (line : jsstring) : nat :=
  Z.to_nat (Z.max 0 (Z.of_nat (count LBRACE line) - Z.of_nat (count RBRACE line))).

(** Count of [:]. *)
Definition colonLevel (line : jsstring) : nat := count COLON line.

(** Steps 1 to 3: split on newline, trim every line, discard the lines that
    became empty. *)
Definition survivingLines (code : jsstring) : list jsstring :=
  filter (fun line => negb (isEmpty line)) (map trim (split LF code)).

(** Steps 4 and 5 on one line. *)
Definition prefixed (indentUnit : jsstring) (indentLevel : jsstring -> nat)
  (line : jsstring) : jsstring :=
  indent indentUnit (indentLevel line) ++ line.

(** Steps 1 to 6. *)
Definition format (indentUnit : jsstring) (indentLevel : jsstring -> nat)
  (code : jsstring) : jsstring :=
  join [LF] (map (prefixed indentUnit indentLevel) (survivingLines code)).

(** The lines of a text; the empty text has none. *)
Definition linesOf (text : jsstring) : list jsstring :=
  match text with
  | [] => []
  | _ :: _ => split LF text
  end.

(** No line of the text consists of white space only. *)
Definition noBlankLine (text : jsstring) : bool :=
  forallb (fun line => negb (blank line)) (linesOf text).

(** Steps 1 to 3 and 6 alone: trimmed, blank lines removed, no indent. *)
Definition trimmedOnly (code : jsstring) : jsstring :=
  join [LF] (survivingLines code).

(** What steps 1 to 3 leave: lines that are not empty, that trimming does
    not change, that start with a character that is not white space and hold
    no newline. *)
Definition clean (line : jsstring) : Prop :=
  trim line = line
  /\ ~ In LF line
  /\ exists c rest, line = c :: rest /\ isWhiteSpace c = false.

(** [segment] is the final [/]-separated segment of [path]: it holds no
    [/] and is what follows the last [/] of [path], or all of it. *)
Definition finalSegment (segment path : jsstring) : Prop :=
  ~ In SLASH segment
  /\ exists before,
       path = before ++ segment
       /\ (before = [] \/ exists b, before = b ++ [SLASH]).

(** An archive entry that is not a directory. *)
Definition isFile (entry : jsstring * Formatter.ZipObject) : bool :=
  negb (Formatter.dir (snd entry)).

(** A string of space characters, as the indent units are. *)
Definition spaces (s : jsstring) : Prop := Forall (fun c => c = SPACE) s.

End Spec.

(** ** The specification's wording of the documentation generator *)

Module ReadmeSpec.
Import JS ReadmeGenerator.

(** The elements of [l] whose flag is set, in order. *)
Fixpoint select (A : Type) (flags : list bool) (l : list A) : list A :=
  match flags, l with
  | b :: flags', x :: l' => if b then x :: select flags' l' else select flags' l'
  | _, _ => []
  end.

(** How many times [label] occurs in [l]. *)
Definition occurrences (label : jsstring) (l : list jsstring) : nat :=
  length (filter (JS.eqb label) l).

Definition labels : list jsstring :=
  [ js "React"; js "Vue.js"; js "Angular"; js "Django"; js "Flask";
    js "Express.js"; js "Spring Boot" ].

Definition isPackageJson (f : FileInfo) : bool :=
  JS.eqb (name f) (js "package.json").

Definition quoted (s : jsstring) : jsstring := [QUOTE] ++ s ++ [QUOTE].

Section WithLowerCase.

Variable toLowerCase : jsstring -> jsstring.

(** The seven signatures, in rule order: three literal substrings of the
    content of the file named [package.json] (the first one of the list;
    they fail if there is none), four substrings of the lowercased contents
    of all files joined by spaces. *)
Definition signatures (files : list FileInfo) : list bool :=
  let packageJson :=
    match find isPackageJson files with
    | Some f => content f
    | None => []
    end in
  let allContent := join (js " ") (map (fun f => toLowerCase (content f)) files) in
  [ includes (quoted (js "react")) packageJson;
    includes (quoted (js "vue")) packageJson;
    includes (quoted (js "@angular/core")) packageJson;
    includes (js "django") allContent;
    includes (js "flask") allContent;
    includes (js "express") allContent;
    includes (js "spring-boot") allContent ].

(** No record of [files] has the lowercased name [pattern]. *)
Definition noneNamed (pattern : jsstring) (files : list FileInfo) : Prop :=
  Forall (fun f => toLowerCase (name f) <> pattern) files.

(** [r] is the first record of [files] with the lowercased name [pattern]. *)
Definition firstNamed (pattern : jsstring) (files : list FileInfo) (r : FileInfo)
  : Prop :=
  exists earlier later,
    files = earlier ++ r :: later
    /\ toLowerCase (name r) = pattern
    /\ noneNamed pattern earlier.

(** [r] is the first match in priority order: the first record for the
    first of the [patterns] that any record matches. *)
Definition firstByPriority (patterns : list jsstring) (files : list FileInfo)
  (r : FileInfo) : Prop :=
  exists before pattern after,
    patterns = before ++ pattern :: after
    /\ Forall (fun p => noneNamed p files) before
    /\ firstNamed pattern files r.

End WithLowerCase.

End ReadmeSpec.

(** ** Sample inputs *)

Module Examples.
Import JS.

(** A [package.json] with two occurrences of ["react"]. *)
Definition package_json : ReadmeGenerator.FileInfo :=
  ReadmeGenerator.mkFileInfo (js "package.json")
    (ReadmeSpec.quoted (js "react") ++ js ": 18, "
     ++ ReadmeSpec.quoted (js "react") ++ js "-dom")
    (js "package.json").

(** A second [package.json], in a sub-directory, after an empty first one. *)
Definition root_package_json : ReadmeGenerator.FileInfo :=
  ReadmeGenerator.mkFileInfo (js "package.json") (js "{}") (js "package.json").

Definition client_package_json : ReadmeGenerator.FileInfo :=
  ReadmeGenerator.mkFileInfo (js "package.json")
    (ReadmeSpec.quoted (js "react")) (js "client/package.json").

Definition main_py : ReadmeGenerator.FileInfo :=
  ReadmeGenerator.mkFileInfo (js "main.py") (js "print(1)") (js "main.py").

Definition app_py : ReadmeGenerator.FileInfo :=
  ReadmeGenerator.mkFileInfo (js "app.py") (js "run()") (js "app.py").

Definition index_js : ReadmeGenerator.FileInfo :=
  ReadmeGenerator.mkFileInfo (js "index.js") (js "") (js "index.js").

(** A single upload that is not an archive. *)
Definition notes_txt : Formatter.File :=
  Formatter.mkFile (js "notes.txt") (Normal (js " a")) (Throw TypeError).

(** A single upload whose name is the empty string. *)
Definition unnamed_upload : Formatter.File :=
  Formatter.mkFile (js "") (Normal (js "x")) (Throw TypeError).

(** An archive with one file entry whose key is the empty string. *)
Definition unnamed_entry_zip : Formatter.File :=
  Formatter.mkFile (js "upload.zip") (Normal (js ""))
    (Normal [(js "", Formatter.mkZipObject false (Normal (js "x")))]).

(** A file with the extension [__proto__], alone and in an archive. *)
Definition proto_upload : Formatter.File :=
  Formatter.mkFile (js "a.__proto__") (Normal (js "x")) (Throw TypeError).

Definition proto_entry_zip : Formatter.File :=
  Formatter.mkFile (js "src.zip") (Normal (js ""))
    (Normal [(js "a.__proto__", Formatter.mkZipObject false (Normal (js "x")))]).

(** The archive with the entries [src/a.py], [src/b.py], [README.md], after
    a directory entry [src/]. *)
Definition project_zip (a b readme : jsstring) : Formatter.File :=
  Formatter.mkFile (js "project.zip") (Normal (js ""))
    (Normal [ (js "src/", Formatter.mkZipObject true (Normal (js "")));
              (js "src/a.py", Formatter.mkZipObject false (Normal a));
              (js "src/b.py", Formatter.mkZipObject false (Normal b));
              (js "README.md", Formatter.mkZipObject false (Normal readme)) ]).

End Examples.

(** ** Observations on texts, trees and statistics *)

Module Observe.
Import JS.

(** The characters of a text that are not white space, in order. *)
Definition nonWhiteSpace (s : jsstring) : jsstring :=
  filter (fun c => negb (isWhiteSpace c)) s.

(** The four formatting functions of [formatter.ts]. *)
Definition families : list (jsstring -> jsstring) :=
  [ Formatter.formatJavaScript; Formatter.formatJava;
    Formatter.formatPython; Formatter.formatC ].

(** The sum of the counts of a statistics object. *)
Definition total (stats : list (jsstring * N)) : N :=
  fold_right (fun entry acc => (snd entry + acc)%N) 0%N stats.

(** [stats[label] || 0] *)
Definition countOf (label : jsstring) (stats : list (jsstring * N)) : N :=
  match Obj.assoc label stats with
  | Some n => n
  | None => 0%N
  end.

(** [tree[p1][p2]...[pn]] through own properties. *)
Fixpoint lookupPath (tree : ReadmeGenerator.Value) (parts : list jsstring)
  : option ReadmeGenerator.Value :=
  match parts with
  | [] => Some tree
  | part :: rest =>
      match tree with
      | ReadmeGenerator.VObj props =>
          match Obj.assoc part props with
          | Some child => lookupPath child rest
          | None => None
          end
      | _ => None
      end
  end.

(** Two paths part ways: after a common start, each has a segment where
    the other has a different one, so neither runs through the other. *)
Definition diverge (p q : list jsstring) : Prop :=
  exists common a b p' q',
    p = common ++ a :: p' /\ q = common ++ b :: q' /\ a <> b.

(** The leaf [buildFileTree] stores for a file. *)
Definition leafOf (toLowerCase : jsstring -> jsstring)
  (f : ReadmeGenerator.FileInfo) : ReadmeGenerator.Value :=
  ReadmeGenerator.VObj
    [ (js "type",
       ReadmeGenerator.getFileType toLowerCase
         (last (split SLASH (ReadmeGenerator.path f)) []));
      (js "size",
       ReadmeGenerator.VNum (N.of_nat (length (ReadmeGenerator.content f)))) ].

(** The segments of the path of a file. *)
Definition segments (f : ReadmeGenerator.FileInfo) : list jsstring :=
  split SLASH (ReadmeGenerator.path f).

(** File type of a name that is a label, not a built-in object. *)
Definition plainType (toLowerCase : jsstring -> jsstring) (filename : jsstring)
  : bool :=
  match ReadmeGenerator.getFileType toLowerCase filename with
  | ReadmeGenerator.VStr _ => true
  | _ => false
  end.

(** Path segments that stay clear of the built-in objects and of the two
    properties of a leaf: no segment has the name of a property of
    [Object.prototype], and no directory is named [type] or [size]. *)
Definition ordinarySegments (parts : list jsstring) : bool :=
  forallb (fun part => negb (ReadmeGenerator.isPrototypeName part)) parts
  && forallb (fun part => negb (JS.eqb part (js "type"))
                          && negb (JS.eqb part (js "size")))
       (removelast parts).

(** A record with ordinary path segments whose name and last path segment
    have a file type that is a label. *)
Definition ordinary (toLowerCase : jsstring -> jsstring)
  (f : ReadmeGenerator.FileInfo) : bool :=
  ordinarySegments (segments f)
  && plainType toLowerCase (last (segments f) [])
  && plainType toLowerCase (ReadmeGenerator.name f).

(** What a property of a tree node may hold: an object, a non-empty string
    under [type], a number under [size]. *)
Definition childOK (P : ReadmeGenerator.Value -> Prop) (key : jsstring)
  (child : ReadmeGenerator.Value) : Prop :=
  (exists props, child = ReadmeGenerator.VObj props /\ P child)
  \/ (key = js "type"
      /\ exists s, child = ReadmeGenerator.VStr s /\ s <> [])
  \/ (key = js "size" /\ exists n, child = ReadmeGenerator.VNum n).

Definition allObjects (props : list (jsstring * ReadmeGenerator.Value)) : Prop :=
  Forall (fun entry => exists ps, snd entry = ReadmeGenerator.VObj ps) props.

(** The shape of the trees [buildFileTree] builds from ordinary records:
    every node is an object, and a node that holds a string or a number has
    a [type]. *)
#[local] Set Warnings "-register-all".
Inductive Sound : ReadmeGenerator.Value -> Prop :=
| Sound_node (props : list (jsstring * ReadmeGenerator.Value)) :
    Forall (fun entry => childOK Sound (fst entry) (snd entry)) props ->
    allObjects props \/ ReadmeGenerator.hasOwn (js "type") props = true ->
    Sound (ReadmeGenerator.VObj props).

(** The text of a formatting result, primitive or wrapped. *)
Definition textOf (v : Formatter.Formatted) : jsstring :=
  match v with
  | Formatter.Str s => s
  | Formatter.StringObject s => s
  end.

(** The record [f] is counted under [label]. *)
Definition hasLabel (toLowerCase : jsstring -> jsstring) (label : jsstring)
  (f : ReadmeGenerator.FileInfo) : bool :=
  match ReadmeGenerator.getFileType toLowerCase (ReadmeGenerator.name f) with
  | ReadmeGenerator.VStr type => JS.eqb type label
  | _ => false
  end.

End Observe.

(** ** More sample inputs *)

Module Samples.
Import JS.

Definition lower := Formatter.toLowerCaseASCII.

(** A text with Windows line ends, an empty line, a blank line, lines with
    blanks and a tab around them, and a newline at the end. *)
Definition brace_text : jsstring :=
  js "  if (x) {" ++ [13; LF]%N
  ++ [LF]
  ++ [SPACE; 9; SPACE; LF]%N
  ++ js "    return {a: {}};  " ++ [LF]
  ++ js "  }  " ++ [LF]
  ++ [9]%N ++ js " a{{ } " ++ [LF].

(** A Python text with an empty line and blanks around the lines. *)
Definition python_text : jsstring :=
  js "  def f(x):  " ++ [LF]
  ++ [LF]
  ++ js "    return {1: 2, 3: 4}" ++ [13; LF]%N
  ++ [9]%N ++ js " x = 1 " ++ [LF].

(** An upload with the name of an archive that cannot be read. *)
Definition broken_zip : Formatter.File :=
  Formatter.mkFile (js "broken.zip") (Normal (js "")) (Throw RangeError).

(** A Python file of white space only. *)
Definition blank_py : Formatter.File :=
  Formatter.mkFile (js "empty.py") (Normal [SPACE; SPACE; LF; SPACE])
    (Throw TypeError).

(** A small project archive. *)
Definition project_entries : list (jsstring * Formatter.ZipObject) :=
  [ (js "src/", Formatter.mkZipObject true (Normal (js "")));
    (js "src/a.py",
     Formatter.mkZipObject false (Normal (js "if x:" ++ [LF] ++ js "  pass")));
    (js "README.md", Formatter.mkZipObject false (Normal (js "old")));
    (js "src/b.js",
     Formatter.mkZipObject false (Normal (js "f() {" ++ [LF] ++ js "}")));
    (js "docs/guide.md", Formatter.mkZipObject false (Normal (js "# new"))) ].

Definition project : Formatter.File :=
  Formatter.mkFile (js "project.zip") (Normal (js "")) (Normal project_entries).

(** An archive with a file [notes] and an entry under [notes/size]. *)
Definition size_trap : Formatter.File :=
  Formatter.mkFile (js "trap.zip") (Normal (js ""))
    (Normal
       [ (js "notes", Formatter.mkZipObject false (Normal (js "x")));
         (js "notes/size/y", Formatter.mkZipObject false (Normal (js ""))) ]).

Definition project_records : list Formatter.FileInfo :=
  Eval vm_compute in
    match Formatter.formatCode lower project with
    | Some (Normal records) => records
    | _ => []
    end.

Definition project_result : App.Result :=
  Eval vm_compute in
    match App.processFileBody lower project with
    | Some (Normal r) => r
    | _ => App.errorResult
    end.

(** Three records whose paths part ways. *)
Definition a_py : ReadmeGenerator.FileInfo :=
  ReadmeGenerator.mkFileInfo (js "a.py") (js "import flask") (js "src/a.py").

Definition b_py : ReadmeGenerator.FileInfo :=
  ReadmeGenerator.mkFileInfo (js "b.py") (js "x = 1") (js "src/b.py").

Definition readme_md : ReadmeGenerator.FileInfo :=
  ReadmeGenerator.mkFileInfo (js "README.md") (js "# doc") (js "README.md").

Definition files : list ReadmeGenerator.FileInfo := [a_py; b_py; readme_md].

Definition files_tree : ReadmeGenerator.Value :=
  Eval vm_compute in
    match ReadmeGenerator.buildFileTree lower files with
    | Some (Normal tree) => tree
    | _ => ReadmeGenerator.VObj []
    end.

Definition files_stats : list (jsstring * N) :=
  Eval vm_compute in
    match ReadmeGenerator.analyzeCodebase lower files with
    | Some stats => stats
    | None => []
    end.

End Samples.

(** * Properties *)

(** ** Facts about the string primitives *)

Section StringFacts.
Import JS.

Lemma eqb_eq (s t : jsstring) : JS.eqb s t = true <-> s = t.
Proof.
  revert t; induction s as [|c s IH]; intros [|d t]; simpl;
    try (split; [discriminate | congruence]); try tauto.
  rewrite andb_true_iff, N.eqb_eq, IH.
  split; [intros [-> ->]; reflexivity | intros [= -> ->]; auto].
Qed.

Lemma eqb_refl (s : jsstring) : JS.eqb s s = true.
Proof. apply eqb_eq; reflexivity. Qed.

Lemma eqb_neq (s t : jsstring) : JS.eqb s t = false <-> s <> t.
Proof.
  rewrite <- eqb_eq. destruct (JS.eqb s t); split; congruence.
Qed.

Lemma split_not_nil (sep : N) (s : jsstring) : split sep s <> [].
Proof.
  destruct s as [|c s]; simpl; [discriminate|].
  destruct (N.eqb c sep); [discriminate|].
  destruct (split sep s); discriminate.
Qed.

Lemma split_pieces_free (sep : N) (s : jsstring) :
  Forall (fun piece => ~ In sep piece) (split sep s).
Proof.
  induction s as [|c s IH]; simpl.
  - constructor; auto.
  - destruct (N.eqb_spec c sep) as [->|Hne].
    + constructor; auto.
    + destruct (split sep s) as [|piece pieces].
      * constructor; [|constructor]. simpl; intuition.
      * inversion IH; subst. constructor; [|assumption].
        simpl; intuition.
Qed.

Lemma split_free (sep : N) (s : jsstring) :
  ~ In sep s -> split sep s = [s].
Proof.
  induction s as [|c s IH]; simpl; intros Hfree; [reflexivity|].
  destruct (N.eqb_spec c sep) as [->|Hne]; [tauto|].
  rewrite IH by tauto. reflexivity.
Qed.

Lemma split_app_sep (sep : N) (s rest : jsstring) :
  ~ In sep s -> split sep (s ++ sep :: rest) = s :: split sep rest.
Proof.
  induction s as [|c s IH]; simpl; intros Hfree.
  - rewrite N.eqb_refl. reflexivity.
  - destruct (N.eqb_spec c sep) as [->|Hne]; [tauto|].
    rewrite IH by tauto. reflexivity.
Qed.

(** Splitting what was joined gives the pieces back, when there is at least
    one piece and no piece holds the separator. *)
Lemma split_join (sep : N) (l : list jsstring) :
  l <> [] -> Forall (fun piece => ~ In sep piece) l ->
  split sep (join [sep] l) = l.
Proof.
  induction l as [|x l IH]; intros Hne Hfree; [congruence|].
  inversion Hfree as [|? ? Hx Hl]; subst.
  destruct l as [|y l].
  - simpl. apply split_free; assumption.
  - change (join [sep] (x :: y :: l)) with (x ++ sep :: join [sep] (y :: l)).
    rewrite split_app_sep by assumption.
    rewrite IH by (assumption || discriminate). reflexivity.
Qed.

Lemma join_split (sep : N) (s : jsstring) : join [sep] (split sep s) = s.
Proof.
  induction s as [|c s IH]; simpl; [reflexivity|].
  pose proof (split_not_nil sep s) as Hnn.
  destruct (N.eqb_spec c sep) as [->|Hne].
  - destruct (split sep s) as [|p ps]; [congruence|].
    simpl in *. rewrite IH. reflexivity.
  - destruct (split sep s) as [|p ps]; [congruence|].
    destruct ps; simpl in *; rewrite <- IH; reflexivity.
Qed.

Lemma join_last (sep : N) (l : list jsstring) :
  l <> [] ->
  exists before,
    join [sep] l = before ++ last l []
    /\ (before = [] \/ exists b, before = b ++ [sep]).
Proof.
  induction l as [|x l IH]; intros Hne; [congruence|].
  destruct l as [|y l].
  - exists []. simpl. auto.
  - destruct IH as (before & Hj & Hshape); [discriminate|].
    exists (x ++ sep :: before). split.
    + change (join [sep] (x :: y :: l)) with (x ++ sep :: join [sep] (y :: l)).
      rewrite Hj. rewrite <- app_assoc. reflexivity.
    + right. destruct Hshape as [->|[b ->]].
      * exists x. reflexivity.
      * exists (x ++ sep :: b). rewrite <- app_assoc. reflexivity.
Qed.

Lemma pop_last (A : Type) (d : A) (l : list A) :
  l <> [] -> pop l = Some (last l d).
Proof.
  intros Hne. unfold pop.
  rewrite (app_removelast_last d Hne) at 1.
  rewrite rev_app_distr. reflexivity.
Qed.

(** The last piece is what follows the last separator. *)
Lemma split_last (sep : N) (s : jsstring) :
  exists before,
    s = before ++ last (split sep s) []
    /\ ~ In sep (last (split sep s) [])
    /\ (before = [] \/ exists b, before = b ++ [sep]).
Proof.
  destruct (join_last sep (split_not_nil sep s)) as (before & Hj & Hshape).
  rewrite join_split in Hj.
  exists before. repeat split; try assumption.
  pose proof (split_pieces_free sep s) as Hfree.
  rewrite Forall_forall in Hfree. apply Hfree.
  destruct (exists_last (split_not_nil sep s)) as (front & piece & ->).
  rewrite last_last. apply in_or_app. right. left. reflexivity.
Qed.

(** *** trim *)

Lemma trimStart_app_ws (w s : jsstring) :
  forallb isWhiteSpace w = true -> trimStart (w ++ s) = trimStart s.
Proof.
  induction w as [|c w IH]; simpl; intros Hw; [reflexivity|].
  apply andb_true_iff in Hw as [-> Hw]. auto.
Qed.

Lemma trimStart_head (s : jsstring) (c : N) (t : jsstring) :
  trimStart s = c :: t -> isWhiteSpace c = false.
Proof.
  induction s as [|d s IH]; simpl; [discriminate|].
  destruct (isWhiteSpace d) eqn:E; [assumption|].
  intros [= -> _]. assumption.
Qed.

Lemma trimEnd_cons (c : N) (s : jsstring) :
  isWhiteSpace c = false -> exists t, trimEnd (c :: s) = c :: t.
Proof.
  intros Hc. simpl. destruct (trimEnd s) as [|d t].
  - rewrite Hc. eauto.
  - eauto.
Qed.

Lemma trim_head (s : jsstring) (c : N) (t : jsstring) :
  trim s = c :: t -> isWhiteSpace c = false.
Proof.
  unfold trim. destruct (trimStart s) as [|d u] eqn:E; simpl; [discriminate|].
  pose proof (trimStart_head _ E) as Hd.
  destruct (trimEnd u); [rewrite Hd|]; intros [= <- _]; assumption.
Qed.

Lemma trimStart_fixed (s : jsstring) :
  match s with [] => True | c :: _ => isWhiteSpace c = false end ->
  trimStart s = s.
Proof.
  destruct s as [|c s]; simpl; [reflexivity|]. intros ->. reflexivity.
Qed.

Lemma trimEnd_idempotent (s : jsstring) : trimEnd (trimEnd s) = trimEnd s.
Proof.
  induction s as [|c s IH]; simpl; [reflexivity|].
  destruct (trimEnd s) as [|d t] eqn:E.
  - destruct (isWhiteSpace c) eqn:Hc; simpl; [reflexivity|].
    rewrite Hc. reflexivity.
  - change (trimEnd (c :: d :: t))
      with (match trimEnd (d :: t) with
            | [] => if isWhiteSpace c then [] else [c]
            | u => c :: u
            end).
    rewrite IH. reflexivity.
Qed.

Lemma trim_idempotent (s : jsstring) : trim (trim s) = trim s.
Proof.
  unfold trim at 2 3.
  assert (Hfix : trimStart (trimEnd (trimStart s)) = trimEnd (trimStart s)).
  { apply trimStart_fixed.
    destruct (trimEnd (trimStart s)) as [|c t] eqn:E; [exact I|].
    apply (trim_head s E). }
  unfold trim. rewrite Hfix. apply trimEnd_idempotent.
Qed.

Lemma trim_app_ws (w s : jsstring) :
  forallb isWhiteSpace w = true -> trim (w ++ s) = trim s.
Proof.
  intros Hw. unfold trim. rewrite trimStart_app_ws by assumption. reflexivity.
Qed.

Lemma trimStart_Forall (P : N -> Prop) (s : jsstring) :
  Forall P s -> Forall P (trimStart s).
Proof.
  induction 1 as [|c s Hc Hs IH]; simpl; [constructor|].
  destruct (isWhiteSpace c); [assumption | constructor; assumption].
Qed.

Lemma trimEnd_Forall (P : N -> Prop) (s : jsstring) :
  Forall P s -> Forall P (trimEnd s).
Proof.
  induction 1 as [|c s Hc Hs IH]; simpl; [constructor|].
  destruct (trimEnd s) as [|d t].
  - destruct (isWhiteSpace c); repeat constructor; assumption.
  - constructor; assumption.
Qed.

Lemma trim_Forall (P : N -> Prop) (s : jsstring) :
  Forall P s -> Forall P (trim s).
Proof.
  intros H. apply trimEnd_Forall, trimStart_Forall, H.
Qed.

End StringFacts.

(** ** The formatting families *)

Section FormatterFacts.
Import JS Formatter Spec.

Lemma mapM_total (A B : Type) (f : A -> Completion B) (g : A -> B) (l : list A) :
  (forall x, f x = Normal (g x)) -> mapM f l = Normal (map g l).
Proof.
  intros Hf. induction l as [|x l IH]; simpl; [reflexivity|].
  rewrite Hf, IH. reflexivity.
Qed.

Lemma match_g_length (c : N) (s : jsstring) :
  length (or_empty (match_g c s)) = Spec.count c s.
Proof.
  unfold match_g, Spec.count.
  assert (H : length (filter (N.eqb c) s) = count_occ N.eq_dec s c).
  { induction s as [|d s IH]; simpl; [reflexivity|].
    destruct (N.eq_dec d c) as [->|Hne].
    - rewrite N.eqb_refl. simpl. congruence.
    - destruct (N.eqb_spec c d); [congruence | assumption]. }
  destruct (filter (N.eqb c) s) as [|d m]; simpl in *; [assumption|].
  rewrite length_map. assumption.
Qed.

Lemma repeat_clamped (indentUnit : jsstring) (z : Z) :
  JS.repeat indentUnit (Z.max 0 z)
  = Normal (Spec.indent indentUnit (Z.to_nat (Z.max 0 z))).
Proof.
  unfold JS.repeat. destruct (Z.ltb_spec (Z.max 0 z) 0); [lia | reflexivity].
Qed.

(** The common shape of the four formatting functions: the [try] block
    never throws, so the [catch] branch is never taken. *)
Lemma format_body (indentUnit : jsstring) (level : jsstring -> Z) (code : jsstring) :
  try_catch
    (lines <-
       mapM (fun line =>
               indent <- JS.repeat indentUnit (Z.max 0 (level line)) ;;
               Normal (indent ++ line))
            (filter (fun line => Nat.ltb 0 (length line))
               (map trim (split LF code))) ;;
     Normal (join [LF] lines))
    (fun _ => code)
  = Spec.format indentUnit (fun line => Z.to_nat (Z.max 0 (level line))) code.
Proof.
  rewrite (mapM_total _
             (Spec.prefixed indentUnit
                (fun line => Z.to_nat (Z.max 0 (level line))))).
  - simpl. unfold Spec.format, Spec.survivingLines. do 2 f_equal.
    apply filter_ext. intros [|c l]; reflexivity.
  - intros line. rewrite repeat_clamped. reflexivity.
Qed.

Lemma format_level_ext (indentUnit : jsstring) (level level' : jsstring -> nat)
  (code : jsstring) :
  (forall line, level line = level' line) ->
  Spec.format indentUnit level code = Spec.format indentUnit level' code.
Proof.
  intros H. unfold Spec.format. f_equal. apply map_ext.
  intros line. unfold Spec.prefixed. rewrite H. reflexivity.
Qed.

Lemma formatJavaScript_spec (code : jsstring) :
  formatJavaScript code = Spec.format (js "  ") Spec.braceLevel code.
Proof.
  unfold formatJavaScript.
  rewrite (format_body (js "  ")
             (fun line => (Z.of_nat (length (or_empty (match_g LBRACE line)))
                           - Z.of_nat (length (or_empty (match_g RBRACE line))))%Z)).
  apply format_level_ext. intros line.
  unfold Spec.braceLevel. rewrite !match_g_length. reflexivity.
Qed.

Lemma formatJava_spec (code : jsstring) :
  formatJava code = Spec.format (js "    ") Spec.braceLevel code.
Proof.
  unfold formatJava.
  rewrite (format_body (js "    ")
             (fun line => (Z.of_nat (length (or_empty (match_g LBRACE line)))
                           - Z.of_nat (length (or_empty (match_g RBRACE line))))%Z)).
  apply format_level_ext. intros line.
  unfold Spec.braceLevel. rewrite !match_g_length. reflexivity.
Qed.

Lemma formatC_spec (code : jsstring) :
  formatC code = Spec.format (js "    ") Spec.braceLevel code.
Proof.
  unfold formatC.
  rewrite (format_body (js "    ")
             (fun line => (Z.of_nat (length (or_empty (match_g LBRACE line)))
                           - Z.of_nat (length (or_empty (match_g RBRACE line))))%Z)).
  apply format_level_ext. intros line.
  unfold Spec.braceLevel. rewrite !match_g_length. reflexivity.
Qed.

Lemma formatPython_spec (code : jsstring) :
  formatPython code = Spec.format (js "    ") Spec.colonLevel code.
Proof.
  unfold formatPython.
  rewrite (format_body (js "    ")
             (fun line => Z.of_nat (length (or_empty (match_g COLON line))))).
  apply format_level_ext. intros line.
  unfold Spec.colonLevel. rewrite match_g_length. lia.
Qed.

(** *** The surviving lines *)

Lemma survivingLines_clean (code : jsstring) :
  Forall clean (Spec.survivingLines code).
Proof.
  unfold Spec.survivingLines. apply Forall_forall. intros line Hin.
  apply filter_In in Hin as [Hin Hne].
  apply in_map_iff in Hin as (raw & <- & Hraw).
  pose proof (split_pieces_free LF code) as Hfree.
  rewrite Forall_forall in Hfree. specialize (Hfree raw Hraw).
  repeat split.
  - apply trim_idempotent.
  - assert (H : Forall (fun c => c <> LF) (trim raw)).
    { apply trim_Forall. apply Forall_forall. intros c Hc ->. auto. }
    rewrite Forall_forall in H. intros Hlf. apply (H LF Hlf). reflexivity.
  - destruct (trim raw) as [|c rest] eqn:E; [discriminate|].
    exists c, rest. split; [reflexivity|]. apply (trim_head raw E).
Qed.

Lemma indent_spaces (indentUnit : jsstring) (n : nat) :
  spaces indentUnit -> spaces (Spec.indent indentUnit n).
Proof.
  intros Hu. unfold Spec.indent, spaces.
  induction n as [|n IH]; simpl; [constructor|].
  apply Forall_app. split; assumption.
Qed.

Lemma spaces_ws (w : jsstring) : spaces w -> forallb isWhiteSpace w = true.
Proof.
  induction 1 as [|c w -> _ IH]; simpl; [reflexivity | assumption].
Qed.

Lemma spaces_no_LF (w : jsstring) : spaces w -> ~ In LF w.
Proof.
  intros Hw Hin. unfold spaces in Hw. rewrite Forall_forall in Hw.
  specialize (Hw LF Hin). discriminate.
Qed.

Lemma blank_app (w line : jsstring) :
  Spec.blank (w ++ line) = Spec.blank w && Spec.blank line.
Proof. apply forallb_app. Qed.

Lemma clean_not_blank (w line : jsstring) :
  clean line -> Spec.blank (w ++ line) = false.
Proof.
  intros (_ & _ & c & rest & -> & Hc).
  rewrite blank_app. simpl. rewrite Hc. apply andb_false_r.
Qed.

Lemma join_not_nil (sep : jsstring) (x : jsstring) (l : list jsstring) :
  x <> [] -> join sep (x :: l) <> [].
Proof.
  intros Hx. destruct l; simpl; [assumption|].
  destruct x; [congruence | discriminate].
Qed.

Section Family.

Variable indentUnit : jsstring.
Variable indentLevel : jsstring -> nat.
Hypothesis unit_spaces : spaces indentUnit.

Local Abbreviation prefixed := (Spec.prefixed indentUnit indentLevel).

Lemma prefixed_trim (line : jsstring) : clean line -> trim (prefixed line) = line.
Proof.
  intros Hc. unfold prefixed, Spec.prefixed.
  rewrite trim_app_ws by (apply spaces_ws, indent_spaces, unit_spaces).
  apply Hc.
Qed.

Lemma prefixed_no_LF (line : jsstring) : clean line -> ~ In LF (prefixed line).
Proof.
  intros (_ & Hlf & _) Hin. unfold prefixed, Spec.prefixed in Hin.
  apply in_app_or in Hin as [Hin|Hin]; [|auto].
  apply (spaces_no_LF (indent_spaces (indentLevel line) unit_spaces) Hin).
Qed.

(** The lines of the formatted text are the prefixed surviving lines. *)
Lemma linesOf_format (code : jsstring) :
  Spec.linesOf (Spec.format indentUnit indentLevel code)
  = map prefixed (Spec.survivingLines code).
Proof.
  unfold Spec.format.
  pose proof (survivingLines_clean code) as Hclean.
  destruct (Spec.survivingLines code) as [|line lines]; [reflexivity|].
  assert (Hne : join [LF] (map prefixed (line :: lines)) <> []).
  { simpl map. apply join_not_nil.
    inversion Hclean as [|? ? (_ & _ & c & rest & -> & _) _]; subst.
    unfold prefixed, Spec.prefixed. intros H. apply app_eq_nil in H as [_ H].
    discriminate. }
  unfold Spec.linesOf.
  destruct (join [LF] (map prefixed (line :: lines))) eqn:E; [congruence|].
  rewrite <- E. apply split_join; [discriminate|].
  apply Forall_forall. intros p Hp.
  apply in_map_iff in Hp as (l & <- & Hl).
  rewrite Forall_forall in Hclean. apply prefixed_no_LF, Hclean, Hl.
Qed.

(** A second pass finds the surviving lines of the first. *)
Lemma survivingLines_format (code : jsstring) :
  Spec.survivingLines (Spec.format indentUnit indentLevel code)
  = Spec.survivingLines code.
Proof.
  pose proof (linesOf_format code) as Hlines.
  pose proof (survivingLines_clean code) as Hclean.
  unfold Spec.linesOf in Hlines.
  destruct (Spec.format indentUnit indentLevel code) as [|c out] eqn:E.
  - destruct (Spec.survivingLines code); [reflexivity | discriminate].
  - unfold Spec.survivingLines at 1. rewrite Hlines.
    rewrite map_map.
    rewrite (map_ext_in _ (fun line => line)).
    + rewrite map_id. rewrite forallb_filter_id; [reflexivity|].
      apply forallb_forall. intros line Hin.
      rewrite Forall_forall in Hclean.
      destruct (Hclean line Hin) as (_ & _ & d & rest & -> & _). reflexivity.
    + intros line Hin. rewrite Forall_forall in Hclean.
      apply prefixed_trim, Hclean, Hin.
Qed.

Lemma format_idempotent (code : jsstring) :
  Spec.format indentUnit indentLevel (Spec.format indentUnit indentLevel code)
  = Spec.format indentUnit indentLevel code.
Proof.
  unfold Spec.format at 1. rewrite survivingLines_format. reflexivity.
Qed.

Lemma format_noBlankLine (code : jsstring) :
  Spec.noBlankLine (Spec.format indentUnit indentLevel code) = true.
Proof.
  unfold Spec.noBlankLine. rewrite linesOf_format.
  apply forallb_forall. intros p Hp.
  apply in_map_iff in Hp as (line & <- & Hin).
  pose proof (survivingLines_clean code) as Hclean.
  rewrite Forall_forall in Hclean.
  unfold prefixed, Spec.prefixed.
  rewrite (clean_not_blank _ (Hclean line Hin)). reflexivity.
Qed.

End Family.

(** A text of one clean line survives as it is. *)
Lemma survivingLines_single (line : jsstring) :
  clean line -> Spec.survivingLines line = [line].
Proof.
  intros (Htrim & Hlf & c & rest & Hline & _).
  unfold Spec.survivingLines. rewrite (@split_free LF line Hlf). simpl.
  rewrite Htrim. rewrite Hline. reflexivity.
Qed.

Lemma two_spaces : spaces (js "  ").
Proof. repeat constructor. Qed.

Lemma four_spaces : spaces (js "    ").
Proof. repeat constructor. Qed.

End FormatterFacts.

(** ** The formatter's claims *)

Section FormatterClaims.
Import JS Formatter.

(** C1. For every input, [formatJavaScript] (2-space unit, extensions js,
    jsx, ts, tsx), [formatJava] and [formatC] (4-space unit, extensions java,
    c, cpp, h, hpp) return exactly: the input split on newline, every line
    trimmed, the empty lines discarded, every surviving line prefixed with
    the unit repeated max(0, count of [{] - count of [}]) times, joined with
    newlines; and no line of the output consists of white space only.  On
    the sample text the three outputs are written out: the carriage return,
    the blanks and the tab around the lines are gone, the empty and the blank
    line are dropped, [if (x) {] and [a{{ }] get one unit, the line with as
    many closing as opening braces and the line [}] get none. *)
Theorem brace_depth_families (code : jsstring) :
  formatJavaScript code = Spec.format (js "  ") Spec.braceLevel code
  /\ formatJava code = Spec.format (js "    ") Spec.braceLevel code
  /\ formatC code = Spec.format (js "    ") Spec.braceLevel code
  /\ Spec.noBlankLine (formatJavaScript code) = true
  /\ Spec.noBlankLine (formatJava code) = true
  /\ Spec.noBlankLine (formatC code) = true
  /\ map (Obj.get formatters)
        [js "js"; js "jsx"; js "ts"; js "tsx"; js "java";
         js "c"; js "cpp"; js "h"; js "hpp"]
     = [Obj.Own formatJavaScript; Obj.Own formatJavaScript;
        Obj.Own formatJavaScript; Obj.Own formatJavaScript;
        Obj.Own formatJava;
        Obj.Own formatC; Obj.Own formatC; Obj.Own formatC; Obj.Own formatC]
  /\ formatJavaScript Samples.brace_text
     = js "  if (x) {" ++ [LF] ++ js "return {a: {}};" ++ [LF]
       ++ js "}" ++ [LF] ++ js "  a{{ }"
  /\ formatJava Samples.brace_text
     = js "    if (x) {" ++ [LF] ++ js "return {a: {}};" ++ [LF]
       ++ js "}" ++ [LF] ++ js "    a{{ }"
  /\ formatC Samples.brace_text
     = js "    if (x) {" ++ [LF] ++ js "return {a: {}};" ++ [LF]
       ++ js "}" ++ [LF] ++ js "    a{{ }"
  /\ formatJavaScript [SPACE; LF; 9; LF]%N = js ""
  /\ formatJava (js "") = js ""
  /\ formatC (js "}}") = js "}}".
Proof.
  pose proof (formatJavaScript_spec code) as HJS.
  pose proof (formatJava_spec code) as HJava.
  pose proof (formatC_spec code) as HC.
  split; [exact HJS|]. split; [exact HJava|]. split; [exact HC|].
  split; [rewrite HJS; apply format_noBlankLine, two_spaces|].
  split; [rewrite HJava; apply format_noBlankLine, four_spaces|].
  split; [rewrite HC; apply format_noBlankLine, four_spaces|].
  repeat split.
Qed.

(** C2. For every input, [formatPython] (extension py) trims each line,
    drops the lines that became empty and prefixes each surviving line with
    4 spaces once per [:] in the line; the line [case 1: x: y], with two
    colons, gets 8 spaces.  On the sample text the output is written out:
    the blanks, the tab and the carriage return around the lines are gone,
    the empty line is dropped, the line with one colon gets 4 spaces, the
    line with two colons 8 and the line without a colon none. *)
Theorem python_family (code : jsstring) :
  formatPython code = Spec.format (js "    ") Spec.colonLevel code
  /\ Obj.get formatters (js "py") = Obj.Own formatPython
  /\ Spec.colonLevel (js "case 1: x: y") = 2
  /\ formatPython (js "case 1: x: y") = js "        case 1: x: y"
  /\ formatPython Samples.python_text
     = js "    def f(x):" ++ [LF] ++ js "        return {1: 2, 3: 4}" ++ [LF]
       ++ js "x = 1"
  /\ formatPython (js "  a: b  " ++ [LF; LF] ++ js " c ") = js "    a: b" ++ [LF] ++ js "c"
  /\ formatPython [SPACE; LF; 9]%N = js ""
  /\ (Spec.clean code -> Spec.count COLON code = 2 ->
      formatPython code = js "        " ++ code).
Proof.
  split; [apply formatPython_spec|].
  repeat split.
  intros Hclean Hcount. rewrite formatPython_spec.
  unfold Spec.format. rewrite (survivingLines_single Hclean).
  cbn [map join]. unfold Spec.prefixed, Spec.colonLevel.
  rewrite Hcount. reflexivity.
Qed.

Lemma python_family_witness :
  Spec.clean (js "case 1: x: y")
  /\ Spec.count COLON (js "case 1: x: y") = 2
  /\ formatPython (js "case 1: x: y") = js "        " ++ js "case 1: x: y".
Proof.
  assert (Hclean : Spec.clean (js "case 1: x: y")).
  { split; [reflexivity|]. split.
    - vm_compute. intuition discriminate.
    - do 2 eexists. split; reflexivity. }
  split; [exact Hclean|]. split; [reflexivity|].
  apply (proj2 (proj2 (proj2 (proj2 (proj2 (proj2 (proj2
           (python_family (js "case 1: x: y"))))))))).
  - exact Hclean.
  - reflexivity.
Defined.

(** C10. Each formatting family is idempotent: formatting a formatted text
    again changes nothing. *)
Theorem families_idempotent (code : jsstring) :
  formatJavaScript (formatJavaScript code) = formatJavaScript code
  /\ formatJava (formatJava code) = formatJava code
  /\ formatC (formatC code) = formatC code
  /\ formatPython (formatPython code) = formatPython code.
Proof.
  repeat split.
  - rewrite !formatJavaScript_spec. apply format_idempotent, two_spaces.
  - rewrite !formatJava_spec. apply format_idempotent, four_spaces.
  - rewrite !formatC_spec. apply format_idempotent, four_spaces.
  - rewrite !formatPython_spec. apply format_idempotent, four_spaces.
Qed.

End FormatterClaims.

(** ** Selecting and calling the formatting routine *)

Section RoutineClaims.
Import JS Formatter.

Variable toLowerCase : jsstring -> jsstring.

Lemma getFormatter_undefined (filename : jsstring) :
  Obj.get formatters (extension toLowerCase filename) = Obj.Undefined ->
  getFormatter toLowerCase filename = Fn (fun code => code).
Proof.
  intros H. unfold getFormatter. rewrite H. reflexivity.
Qed.

Lemma getFormatter_own (filename : jsstring) (f : jsstring -> jsstring) :
  Obj.get formatters (extension toLowerCase filename) = Obj.Own f ->
  getFormatter toLowerCase filename = Fn f.
Proof.
  intros H. unfold getFormatter. rewrite H. reflexivity.
Qed.

(** Unless [formatters[ext]] finds an inherited property, the selected
    routine is one of the functions of the file and its call returns a
    string. *)
Lemma call_returns_string (filename code : jsstring) :
  (forall p,
     Obj.get formatters (extension toLowerCase filename) <> Obj.Inherited p) ->
  exists f,
    getFormatter toLowerCase filename = Fn f
    /\ call (getFormatter toLowerCase filename) code = Some (Normal (Str (f code))).
Proof.
  intros H. unfold getFormatter.
  destruct (Obj.get formatters (extension toLowerCase filename)) as [f|p|].
  - exists f. split; reflexivity.
  - destruct (H p). reflexivity.
  - exists (fun code => code). split; reflexivity.
Qed.

(** C9, as the code has it.  For every filename whose lowercased extension
    is [go] or [txt], or any other name that is neither a key of
    [formatters] nor a property of [Object.prototype], and for every input,
    the call of the selected routine returns the input itself: nothing is
    trimmed, no line is removed, nothing is reindented. *)
Theorem identity_extension_unchanged (filename code : jsstring) :
  extension toLowerCase filename = js "go"
  \/ extension toLowerCase filename = js "txt"
  \/ Obj.get formatters (extension toLowerCase filename) = Obj.Undefined ->
  getFormatter toLowerCase filename = Fn (fun code => code)
  /\ call (getFormatter toLowerCase filename) code = Some (Normal (Str code)).
Proof.
  intros H.
  assert (Hu : Obj.get formatters (extension toLowerCase filename) = Obj.Undefined).
  { destruct H as [-> | [-> | H]]; [reflexivity | reflexivity | exact H]. }
  rewrite (getFormatter_undefined _ Hu). split; reflexivity.
Qed.

End RoutineClaims.

Section RoutineExamples.
Import JS Formatter.

Lemma identity_extension_unchanged_witness :
  getFormatter toLowerCaseASCII (js "main.GO") = Fn (fun code => code)
  /\ call (getFormatter toLowerCaseASCII (js "main.GO")) (js "  x {")
     = Some (Normal (Str (js "  x {"))).
Proof.
  apply (identity_extension_unchanged toLowerCaseASCII (js "main.GO") (js "  x {")).
  left. reflexivity.
Defined.

(** C9, as stated, fails: for [a.go] the input ["  x"] comes back with its
    leading blanks, not trimmed. *)
Lemma go_file_not_trimmed :
  Spec.trimmedOnly (js "  x") = js "x"
  /\ call (getFormatter toLowerCaseASCII (js "a.go")) (js "  x")
     <> Some (Normal (Str (Spec.trimmedOnly (js "  x")))).
Proof.
  split; [reflexivity|]. vm_compute. discriminate.
Qed.

(** C3 at the file name [a.__proto__]: [formatters[ext]] finds
    [Object.prototype], which [getFormatter] returns instead of the identity
    function; the call raises a TypeError, which [formatCode] lets through
    for a single file and turns into its own error for an archive entry. *)
Theorem proto_extension_raises :
  extension toLowerCaseASCII (js "a.__proto__") = js "__proto__"
  /\ call (getFormatter toLowerCaseASCII (js "a.__proto__")) (js "x")
     = Some (Throw TypeError)
  /\ formatCode toLowerCaseASCII Examples.proto_upload = Some (Throw TypeError)
  /\ formatCode toLowerCaseASCII Examples.proto_entry_zip
     = Some (Throw (ErrorMsg (js "Failed to process ZIP file"))).
Proof.
  repeat split.
Qed.

(** C8 at the file names [a.constructor] and [a.__proto__]: neither
    extension is a key of [formatters], and the routine returned is not the
    identity function but the built-in [Object], whose call wraps the input
    in a String object, and the object [Object.prototype]. *)
Theorem inherited_extension_not_identity :
  Obj.assoc (js "constructor") formatters = None
  /\ Obj.assoc (js "__proto__") formatters = None
  /\ getFormatter toLowerCaseASCII (js "a.constructor")
     = Builtin Obj.OP_constructor
  /\ call (getFormatter toLowerCaseASCII (js "a.constructor")) (js "x")
     = Some (Normal (StringObject (js "x")))
  /\ getFormatter toLowerCaseASCII (js "a.__proto__") = Builtin Obj.OP_proto.
Proof.
  repeat split.
Qed.

End RoutineExamples.

(** ** The ingester *)

Section IngesterFacts.
Import JS Formatter Spec.

Variable toLowerCase : jsstring -> jsstring.

Lemma basename_last (path : jsstring) :
  basename path = last (split SLASH path) [].
Proof.
  unfold basename.
  rewrite (@pop_last jsstring [] _ (split_not_nil SLASH path)).
  destruct (last (split SLASH path) []); reflexivity.
Qed.

Lemma basename_finalSegment (path : jsstring) :
  Spec.finalSegment (basename path) path.
Proof.
  rewrite basename_last.
  destruct (split_last SLASH path) as (before & Hpath & Hfree & Hshape).
  split; [exact Hfree|]. exists before. split; assumption.
Qed.

(** The loop appends one record per entry that is not a directory, in the
    order of the entries, with the entry's key as [path]. *)
Lemma zipLoop_records (entries : list (jsstring * ZipObject))
  (files records : list FileInfo) :
  zipLoop toLowerCase entries files = Some (Normal records) ->
  exists added,
    records = files ++ added
    /\ map path added = map fst (filter isFile entries)
    /\ map (fun r => Normal (content r)) added
       = map (fun e => async_string (snd e)) (filter isFile entries)
    /\ Forall (fun r => name r = basename (path r)) added.
Proof.
  revert files. induction entries as [|[key zipFile] entries IH]; intros files H.
  - simpl in H. injection H as <-. exists []. rewrite app_nil_r.
    repeat split; constructor.
  - simpl in H. unfold isFile at 1 2. simpl.
    destruct (dir zipFile); simpl in *.
    + apply IH, H.
    + destruct (async_string zipFile) as [text|e] eqn:Ea; [|discriminate].
      destruct (call (getFormatter toLowerCase (basename key)) text)
        as [[formatted|e]|]; try discriminate.
      destruct (IH _ H) as (added & -> & Hp & Hc & Hn).
      exists (mkFileInfo (basename key) text key formatted :: added).
      rewrite <- app_assoc. simpl. rewrite Hp, Hc.
      repeat split. constructor; [reflexivity | assumption].
Qed.

End IngesterFacts.

Section IngesterClaims.
Import JS Formatter Spec.

(** C4, as the code has it.  For an archive, [formatCode] returns one record
    per entry that is not a directory, in the order of the entries: its
    [path] is the entry's key, so it is empty only if the key is, and its
    [name] is the final [/]-separated segment of the path.  For a single
    upload it returns one record, with [path] and [name] both the upload's
    name.  An archive with a directory entry [src/] and the file entries
    [src/a.py], [src/b.py], [README.md] gives exactly 3 records, none with an
    empty path. *)
Theorem formatCode_records :
  (forall a b readme : jsstring,
     formatCode toLowerCaseASCII (Examples.project_zip a b readme)
     = Some (Normal
         [ mkFileInfo (js "a.py") a (js "src/a.py") (Str (formatPython a));
           mkFileInfo (js "b.py") b (js "src/b.py") (Str (formatPython b));
           mkFileInfo (js "README.md") readme (js "README.md") (Str readme) ]))
  /\ (forall (toLowerCase : jsstring -> jsstring) (file : File)
        (records : list FileInfo),
       formatCode toLowerCase file = Some (Normal records) ->
       (endsWith (js ".zip") (file_name file) = true
        /\ exists entries,
             loadAsync file = Normal entries
             /\ map path records = map fst (filter isFile entries)
             /\ Forall (fun r => Spec.finalSegment (name r) (path r)) records)
       \/ (endsWith (js ".zip") (file_name file) = false
           /\ exists text formatted,
                file_text file = Normal text
                /\ records = [mkFileInfo (file_name file) text
                                (file_name file) formatted])).
Proof.
  split.
  - intros a b readme. reflexivity.
  - intros toLowerCase file records H. unfold formatCode in H.
    destruct (endsWith (js ".zip") (file_name file)).
    + left. split; [reflexivity|].
      destruct (loadAsync file) as [entries|e]; [|discriminate].
      exists entries. split; [reflexivity|].
      destruct (zipLoop toLowerCase entries []) as [[files|e]|] eqn:E;
        try discriminate.
      injection H as <-.
      destruct (zipLoop_records _ _ _ E) as (added & -> & Hp & _ & Hn).
      simpl. split; [exact Hp|].
      apply Forall_forall. intros r Hr.
      rewrite Forall_forall in Hn. rewrite (Hn r Hr).
      apply basename_finalSegment.
    + right. split; [reflexivity|].
      destruct (file_text file) as [text|e]; [|discriminate].
      destruct (call (getFormatter toLowerCase (file_name file)) text)
        as [[formatted|e]|]; try discriminate.
      injection H as <-. exists text, formatted. split; reflexivity.
Qed.

Lemma formatCode_records_witness :
  formatCode toLowerCaseASCII Examples.notes_txt
  = Some (Normal [mkFileInfo (js "notes.txt") (js " a") (js "notes.txt")
                    (Str (js " a"))])
  /\ endsWith (js ".zip") (file_name Examples.notes_txt) = false
  /\ exists text formatted,
       file_text Examples.notes_txt = Normal text
       /\ [mkFileInfo (js "notes.txt") (js " a") (js "notes.txt") (Str (js " a"))]
          = [mkFileInfo (file_name Examples.notes_txt) text
               (file_name Examples.notes_txt) formatted].
Proof.
  split; [reflexivity|].
  destruct (proj2 formatCode_records toLowerCaseASCII Examples.notes_txt
              [mkFileInfo (js "notes.txt") (js " a") (js "notes.txt")
                 (Str (js " a"))] eq_refl) as [[Hzip _]|H].
  - vm_compute in Hzip. discriminate.
  - exact H.
Defined.

(** C4, as stated, fails: an upload whose name is the empty string, and an
    archive with a file entry whose key is the empty string, give a record
    with an empty path. *)
Lemma empty_name_empty_path :
  formatCode toLowerCaseASCII Examples.unnamed_upload
  = Some (Normal [mkFileInfo [] (js "x") [] (Str (js "x"))])
  /\ formatCode toLowerCaseASCII Examples.unnamed_entry_zip
     = Some (Normal [mkFileInfo [] (js "x") [] (Str (js "x"))])
  /\ ~ (forall (file : File) (records : list FileInfo),
          formatCode toLowerCaseASCII file = Some (Normal records) ->
          Forall (fun r => path r <> []) records).
Proof.
  split; [reflexivity|]. split; [reflexivity|].
  intros H.
  specialize (H Examples.unnamed_upload
                [mkFileInfo [] (js "x") [] (Str (js "x"))] eq_refl).
  inversion H as [|? ? Hpath _]; subst. apply Hpath. reflexivity.
Qed.

End IngesterClaims.

(** ** The documentation generator *)

Section ReadmeFacts.
Import JS ReadmeGenerator ReadmeSpec.

Lemma select_In (A : Type) (flags : list bool) (l : list A) (x : A) :
  In x (select flags l) -> In x l.
Proof.
  revert flags. induction l as [|y l IH]; intros [|b flags]; simpl; try tauto.
  destruct b; simpl; intros H.
  - destruct H as [H|H]; [left; exact H | right; eapply IH, H].
  - right. eapply IH, H.
Qed.

Lemma select_NoDup (A : Type) (flags : list bool) (l : list A) :
  NoDup l -> NoDup (select flags l).
Proof.
  intros Hl. revert flags. induction Hl as [|y l Hy Hl IH]; intros [|b flags];
    simpl; try constructor.
  destruct b; [|apply IH].
  constructor; [|apply IH]. intros H. apply Hy. eapply select_In, H.
Qed.

Lemma labels_NoDup : NoDup labels.
Proof.
  unfold labels.
  repeat (constructor; [simpl; intuition discriminate|]). constructor.
Qed.

Lemma occurrences_not_In (label : jsstring) (l : list jsstring) :
  ~ In label l -> occurrences label l = 0.
Proof.
  unfold occurrences. induction l as [|x l IH]; simpl; intros H; [reflexivity|].
  destruct (JS.eqb label x) eqn:E.
  - apply eqb_eq in E. subst. tauto.
  - apply IH. tauto.
Qed.

Lemma occurrences_NoDup (label : jsstring) (l : list jsstring) :
  NoDup l -> occurrences label l <= 1.
Proof.
  induction 1 as [|x l Hx Hl IH]; unfold occurrences in *; simpl; [lia|].
  destruct (JS.eqb label x) eqn:E; [|exact IH].
  apply eqb_eq in E. subst x. simpl.
  pose proof (@occurrences_not_In label l Hx) as H0. unfold occurrences in H0. lia.
Qed.

Section WithLowerCase.

Variable toLowerCase : jsstring -> jsstring.

Lemma detectFrameworks_select (files : list FileInfo) :
  detectFrameworks toLowerCase files
  = select (signatures toLowerCase files) labels.
Proof.
  unfold detectFrameworks, signatures, quoted, isPackageJson.
  set (packageJson := match find _ files with Some f => content f | None => _ end).
  set (allContent := join (js " ") _).
  destruct (includes ([QUOTE] ++ js "react" ++ [QUOTE]) packageJson);
  destruct (includes ([QUOTE] ++ js "vue" ++ [QUOTE]) packageJson);
  destruct (includes ([QUOTE] ++ js "@angular/core" ++ [QUOTE]) packageJson);
  destruct (includes (js "django") allContent);
  destruct (includes (js "flask") allContent);
  destruct (includes (js "express") allContent);
  destruct (includes (js "spring-boot") allContent);
  reflexivity.
Qed.

Lemma find_firstNamed (pattern : jsstring) (files : list FileInfo) (r : FileInfo) :
  find (fun f => JS.eqb (toLowerCase (name f)) pattern) files = Some r
  <-> firstNamed toLowerCase pattern files r.
Proof.
  unfold firstNamed, noneNamed. induction files as [|f files IH]; simpl.
  - split; [discriminate|]. intros (earlier & later & H & _).
    destruct earlier; discriminate.
  - destruct (JS.eqb (toLowerCase (name f)) pattern) eqn:E.
    + split.
      * intros [= ->]. exists [], files. apply eqb_eq in E.
        repeat split; [assumption | constructor].
      * intros (earlier & later & Hf & Hr & Hnone).
        destruct earlier as [|e earlier]; simpl in Hf.
        -- congruence.
        -- injection Hf as <- _. inversion Hnone; subst.
           apply eqb_eq in E. contradiction.
    + rewrite IH. apply eqb_neq in E. split.
      * intros (earlier & later & -> & Hr & Hnone).
        exists (f :: earlier), later. repeat split; [assumption|].
        constructor; assumption.
      * intros (earlier & later & Hf & Hr & Hnone).
        destruct earlier as [|e earlier]; simpl in Hf.
        -- injection Hf as <- _. contradiction.
        -- injection Hf as <- ->. inversion Hnone; subst.
           exists earlier, later. repeat split; assumption.
Qed.

Lemma find_noneNamed (pattern : jsstring) (files : list FileInfo) :
  find (fun f => JS.eqb (toLowerCase (name f)) pattern) files = None
  <-> noneNamed toLowerCase pattern files.
Proof.
  unfold noneNamed. induction files as [|f files IH]; simpl.
  - split; [constructor | reflexivity].
  - destruct (JS.eqb (toLowerCase (name f)) pattern) eqn:E.
    + split; [discriminate|]. intros H. inversion H; subst.
      apply eqb_eq in E. contradiction.
    + rewrite IH. apply eqb_neq in E. split.
      * intros H. constructor; assumption.
      * intros H. inversion H; assumption.
Qed.

Lemma firstNamed_not_noneNamed (pattern : jsstring) (files : list FileInfo)
  (r : FileInfo) :
  firstNamed toLowerCase pattern files r ->
  noneNamed toLowerCase pattern files -> False.
Proof.
  intros Hf Hn. apply find_firstNamed in Hf. apply find_noneNamed in Hn.
  congruence.
Qed.

Lemma findMainFileIn_Some (patterns : list jsstring) (files : list FileInfo)
  (r : FileInfo) :
  findMainFileIn toLowerCase patterns files = Some r
  <-> firstByPriority toLowerCase patterns files r.
Proof.
  unfold firstByPriority. induction patterns as [|p patterns IH]; simpl.
  - split; [discriminate|]. intros (before & pattern & after & H & _).
    destruct before; discriminate.
  - destruct (find (fun f => JS.eqb (toLowerCase (name f)) p) files)
      as [found|] eqn:E.
    + apply find_firstNamed in E. split.
      * intros [= ->]. exists [], p, patterns.
        repeat split; [constructor | assumption].
      * intros (before & pattern & after & Hp & Hnone & Hfirst).
        destruct before as [|b before]; simpl in Hp.
        -- injection Hp as <- _.
           apply find_firstNamed in E, Hfirst. congruence.
        -- injection Hp as <- _. inversion Hnone as [|? ? Hb _]; subst.
           exfalso. exact (firstNamed_not_noneNamed E Hb).
    + apply find_noneNamed in E. rewrite IH. split.
      * intros (before & pattern & after & -> & Hnone & Hfirst).
        exists (p :: before), pattern, after.
        repeat split; [constructor; assumption | assumption].
      * intros (before & pattern & after & Hp & Hnone & Hfirst).
        destruct before as [|b before]; simpl in Hp.
        -- injection Hp as <- _.
           exfalso. exact (firstNamed_not_noneNamed Hfirst E).
        -- injection Hp as <- ->. inversion Hnone; subst.
           exists before, pattern, after. repeat split; assumption.
Qed.

Lemma findMainFileIn_None (patterns : list jsstring) (files : list FileInfo) :
  findMainFileIn toLowerCase patterns files = None
  <-> Forall (fun p => noneNamed toLowerCase p files) patterns.
Proof.
  induction patterns as [|p patterns IH]; simpl.
  - split; [constructor | reflexivity].
  - destruct (find (fun f => JS.eqb (toLowerCase (name f)) p) files)
      as [found|] eqn:E.
    + split; [discriminate|]. intros H. inversion H as [|? ? Hp _]; subst.
      apply find_firstNamed in E.
      exfalso. exact (firstNamed_not_noneNamed E Hp).
    + apply find_noneNamed in E. rewrite IH. split.
      * intros H. constructor; assumption.
      * intros H. inversion H; assumption.
Qed.

End WithLowerCase.

End ReadmeFacts.

Section ReadmeClaims.
Import JS ReadmeGenerator ReadmeSpec.

Variable toLowerCase : jsstring -> jsstring.

(** C5, as the code has it.  [detectFrameworks] returns the labels of the
    signatures that match, in rule order, each label at most once.  If the
    first file of the list named [package.json] has a content that contains
    ["react"], quotes included, then [React] is in the result exactly once,
    however often the substring occurs.  A file list that matches none of
    the seven signatures gives the empty list. *)
Theorem frameworks_once (files : list FileInfo) :
  detectFrameworks toLowerCase files
  = select (signatures toLowerCase files) labels
  /\ (forall label,
        occurrences label (detectFrameworks toLowerCase files) <= 1)
  /\ (forall pkg,
        find isPackageJson files = Some pkg ->
        includes (quoted (js "react")) (content pkg) = true ->
        occurrences (js "React") (detectFrameworks toLowerCase files) = 1)
  /\ (signatures toLowerCase files
       = [false; false; false; false; false; false; false] ->
      detectFrameworks toLowerCase files = []).
Proof.
  rewrite detectFrameworks_select.
  split; [reflexivity|]. split; [|split].
  - intros label. apply occurrences_NoDup, select_NoDup, labels_NoDup.
  - intros pkg Hfind Hreact.
    pose proof (occurrences_NoDup (js "React")
                  (select_NoDup (signatures toLowerCase files) labels_NoDup))
      as Hle.
    unfold signatures in *. rewrite Hfind in *. rewrite Hreact in *.
    unfold labels in *. cbn [select] in *.
    unfold occurrences in *. cbn [filter] in *.
    rewrite eqb_refl in *. cbn [length] in *. lia.
  - intros ->. reflexivity.
Qed.

(** C6, as the code has it.  [findMainFile] returns the first record, in
    the priority order index.ts, index.js, main.py, app.py, server.js,
    app.js, index.html, whose lowercased name equals the pattern, and null
    if no record matches any pattern.  For a list that holds a record named
    main.py and no record named index.ts or index.js, in whatever order and
    whether or not it holds app.py, it returns the first main.py record. *)
Theorem findMainFile_priority (files : list FileInfo) :
  (forall r,
     findMainFile toLowerCase files = Some r
     <-> firstByPriority toLowerCase mainFilePatterns files r)
  /\ (findMainFile toLowerCase files = None
      <-> Forall (fun p => noneNamed toLowerCase p files) mainFilePatterns)
  /\ (forall reordered m,
        Permutation files reordered ->
        In m files ->
        toLowerCase (name m) = js "main.py" ->
        noneNamed toLowerCase (js "index.ts") files ->
        noneNamed toLowerCase (js "index.js") files ->
        exists r,
          findMainFile toLowerCase reordered = Some r
          /\ firstNamed toLowerCase (js "main.py") reordered r).
Proof.
  split; [|split].
  - intros r. apply findMainFileIn_Some.
  - apply findMainFileIn_None.
  - intros reordered m Hperm Hin Hname Hts Hjs.
    assert (Hfirst : exists r, firstNamed toLowerCase (js "main.py") reordered r).
    { destruct (find (fun f => JS.eqb (toLowerCase (name f)) (js "main.py")) reordered)
        as [r|] eqn:E.
      - exists r. apply find_firstNamed, E.
      - apply find_noneNamed in E. unfold noneNamed in E.
        rewrite Forall_forall in E.
        exfalso. apply (E m); [|exact Hname].
        eapply Permutation_in; eassumption. }
    destruct Hfirst as (r & Hfirst). exists r. split; [|exact Hfirst].
    apply findMainFileIn_Some.
    exists [js "index.ts"; js "index.js"], (js "main.py"),
      [js "app.py"; js "server.js"; js "app.js"; js "index.html"].
    split; [reflexivity|]. split; [|exact Hfirst].
    unfold noneNamed in *.
    repeat constructor; eapply Permutation_Forall; eassumption.
Qed.

(** C7. [generateReadme] on the empty file list returns a text and does
    not throw: the statistics breakdown is empty, the frameworks section is
    left out, and the main entry point section reads
    [No clear entry point detected.] *)
Theorem generateReadme_empty :
  analyzeCodebase toLowerCase [] = Some []
  /\ statsBreakdown [] = []
  /\ detectFrameworks toLowerCase [] = []
  /\ technologiesSection [] = []
  /\ findMainFile toLowerCase [] = None
  /\ mainEntrySection None = js "No clear entry point detected."
  /\ exists readme,
       generateReadme toLowerCase [] = Some (Normal readme)
       /\ includes (js "Technologies Used") readme = false
       /\ includes
            (js "across various technologies:" ++ [LF; LF; LF; LF; LF]
             ++ js "## " ++ [55357; 56960]%N ++ js " Getting Started")
            readme = true
       /\ includes
            (js " Main Entry Point" ++ [LF]
             ++ js "No clear entry point detected." ++ [LF])
            readme = true.
Proof.
  repeat (split; [reflexivity|]).
  eexists. split; [reflexivity|].
  repeat split; vm_compute; reflexivity.
Qed.

End ReadmeClaims.

Section ReadmeExamples.
Import JS ReadmeGenerator ReadmeSpec.

Lemma frameworks_once_witness :
  find isPackageJson [Examples.package_json] = Some Examples.package_json
  /\ includes (quoted (js "react")) (content Examples.package_json) = true
  /\ occurrences (js "React")
       (detectFrameworks Formatter.toLowerCaseASCII [Examples.package_json]) = 1.
Proof.
  split; [reflexivity|]. split; [reflexivity|].
  apply (proj1 (proj2 (proj2 (frameworks_once Formatter.toLowerCaseASCII
                                [Examples.package_json])))
           Examples.package_json);
    reflexivity.
Defined.

(** C5, as stated, fails: of two files named [package.json], only the
    first is read; ["react"] in the second one is not seen. *)
Lemma second_package_json_ignored :
  ~ (forall (files : list FileInfo) (f : FileInfo),
       In f files ->
       name f = js "package.json" ->
       includes (quoted (js "react")) (content f) = true ->
       occurrences (js "React")
         (detectFrameworks Formatter.toLowerCaseASCII files) = 1).
Proof.
  intros H.
  specialize (H [Examples.root_package_json; Examples.client_package_json]
                Examples.client_package_json
                (or_intror (or_introl eq_refl)) eq_refl eq_refl).
  vm_compute in H. discriminate.
Qed.

Lemma findMainFile_priority_witness :
  Permutation [Examples.app_py; Examples.main_py] [Examples.main_py; Examples.app_py]
  /\ (exists r,
        findMainFile Formatter.toLowerCaseASCII [Examples.main_py; Examples.app_py]
        = Some r
        /\ firstNamed Formatter.toLowerCaseASCII (js "main.py")
             [Examples.main_py; Examples.app_py] r)
  /\ findMainFile Formatter.toLowerCaseASCII [Examples.main_py; Examples.app_py]
     = Some Examples.main_py
  /\ findMainFile Formatter.toLowerCaseASCII [Examples.app_py; Examples.main_py]
     = Some Examples.main_py.
Proof.
  split; [apply perm_swap|]. split; [|split; reflexivity].
  apply (proj2 (proj2 (findMainFile_priority Formatter.toLowerCaseASCII
                         [Examples.app_py; Examples.main_py]))
           [Examples.main_py; Examples.app_py] Examples.main_py).
  - apply perm_swap.
  - right. left. reflexivity.
  - reflexivity.
  - repeat constructor; vm_compute; discriminate.
  - repeat constructor; vm_compute; discriminate.
Defined.

(** C6, as stated, fails: with index.js in the list, the list holds main.py
    and app.py and the index.js record is returned. *)
Lemma index_js_before_main_py :
  ~ (forall (files : list FileInfo) (m a : FileInfo),
       In m files -> In a files ->
       name m = js "main.py" -> name a = js "app.py" ->
       findMainFile Formatter.toLowerCaseASCII files = Some m).
Proof.
  intros H.
  specialize (H [Examples.index_js; Examples.main_py; Examples.app_py]
                Examples.main_py Examples.app_py
                (or_intror (or_introl eq_refl))
                (or_intror (or_intror (or_introl eq_refl))) eq_refl eq_refl).
  vm_compute in H. discriminate.
Qed.

End ReadmeExamples.

(** * Further properties of the formatter *)

Section FormatterMore.
Import JS Formatter Spec Observe.

Lemma nonWhiteSpace_app (s t : jsstring) :
  nonWhiteSpace (s ++ t) = nonWhiteSpace s ++ nonWhiteSpace t.
Proof. apply filter_app. Qed.

Lemma nonWhiteSpace_blank (s : jsstring) :
  nonWhiteSpace s = [] <-> blank s = true.
Proof.
  unfold nonWhiteSpace, blank. induction s as [|c s IH]; simpl; [tauto|].
  destruct (isWhiteSpace c); simpl; [exact IH|].
  split; discriminate.
Qed.

Lemma nonWhiteSpace_trimStart (s : jsstring) :
  nonWhiteSpace (trimStart s) = nonWhiteSpace s.
Proof.
  induction s as [|c s IH]; simpl; [reflexivity|].
  destruct (isWhiteSpace c) eqn:E; simpl; [exact IH|].
  rewrite E. reflexivity.
Qed.

Lemma nonWhiteSpace_trimEnd (s : jsstring) :
  nonWhiteSpace (trimEnd s) = nonWhiteSpace s.
Proof.
  induction s as [|c s IH]; simpl; [reflexivity|].
  destruct (trimEnd s) as [|d t].
  - simpl in IH. destruct (isWhiteSpace c) eqn:E; simpl; rewrite ?E; simpl;
      rewrite <- IH; reflexivity.
  - change (c :: d :: t) with ([c] ++ d :: t).
    change (c :: s) with ([c] ++ s).
    rewrite !nonWhiteSpace_app, IH. simpl.
    destruct (isWhiteSpace c); reflexivity.
Qed.

Lemma nonWhiteSpace_trim (s : jsstring) :
  nonWhiteSpace (trim s) = nonWhiteSpace s.
Proof.
  unfold trim. rewrite nonWhiteSpace_trimEnd. apply nonWhiteSpace_trimStart.
Qed.

Lemma nonWhiteSpace_join (l : list jsstring) :
  nonWhiteSpace (join [LF] l) = concat (map nonWhiteSpace l).
Proof.
  induction l as [|x l IH]; [reflexivity|].
  destruct l as [|y l].
  - simpl. rewrite app_nil_r. reflexivity.
  - change (join [LF] (x :: y :: l)) with (x ++ LF :: join [LF] (y :: l)).
    rewrite nonWhiteSpace_app.
    change (nonWhiteSpace (LF :: join [LF] (y :: l)))
      with (nonWhiteSpace (join [LF] (y :: l))).
    rewrite IH. reflexivity.
Qed.

Lemma nonWhiteSpace_spaces (w : jsstring) : spaces w -> nonWhiteSpace w = [].
Proof.
  intros Hw. apply nonWhiteSpace_blank. apply spaces_ws, Hw.
Qed.

Lemma nonWhiteSpace_survivingLines (code : jsstring) :
  concat (map nonWhiteSpace (survivingLines code)) = nonWhiteSpace code.
Proof.
  unfold survivingLines.
  rewrite <- (join_split LF code) at 2. rewrite nonWhiteSpace_join.
  induction (split LF code) as [|x l IH]; [reflexivity|].
  simpl. rewrite <- IH.
  destruct (trim x) as [|c t] eqn:E; simpl.
  - rewrite <- (nonWhiteSpace_trim x), E. reflexivity.
  - rewrite <- (nonWhiteSpace_trim x), E. reflexivity.
Qed.

Lemma nonWhiteSpace_format (indentUnit : jsstring) (level : jsstring -> nat)
  (code : jsstring) :
  spaces indentUnit ->
  nonWhiteSpace (Spec.format indentUnit level code) = nonWhiteSpace code.
Proof.
  intros Hu. unfold Spec.format. rewrite nonWhiteSpace_join, map_map.
  rewrite <- nonWhiteSpace_survivingLines. f_equal. apply map_ext.
  intros line. unfold prefixed. rewrite nonWhiteSpace_app.
  rewrite (nonWhiteSpace_spaces (indent_spaces _ Hu)). reflexivity.
Qed.

Lemma family_cases (P : (jsstring -> jsstring) -> Prop) :
  P formatJavaScript -> P formatJava -> P formatPython -> P formatC ->
  Forall P families.
Proof.
  intros. unfold families. repeat constructor; assumption.
Qed.

Lemma families_nonWhiteSpace (code : jsstring) :
  Forall (fun format => nonWhiteSpace (format code) = nonWhiteSpace code)
    families.
Proof.
  apply family_cases.
  - rewrite formatJavaScript_spec. apply nonWhiteSpace_format, two_spaces.
  - rewrite formatJava_spec. apply nonWhiteSpace_format, four_spaces.
  - rewrite formatPython_spec. apply nonWhiteSpace_format, four_spaces.
  - rewrite formatC_spec. apply nonWhiteSpace_format, four_spaces.
Qed.

(** X1. Formatting changes white space only: the characters of the output
    that are not white space are those of the input, in the same order. *)
Theorem formatting_changes_white_space_only (code : jsstring) :
  Forall (fun format => nonWhiteSpace (format code) = nonWhiteSpace code)
    families.
Proof.
  apply family_cases.
  - rewrite formatJavaScript_spec. apply nonWhiteSpace_format, two_spaces.
  - rewrite formatJava_spec. apply nonWhiteSpace_format, four_spaces.
  - rewrite formatPython_spec. apply nonWhiteSpace_format, four_spaces.
  - rewrite formatC_spec. apply nonWhiteSpace_format, four_spaces.
Qed.

Lemma format_nil_iff (indentUnit : jsstring) (level : jsstring -> nat)
  (code : jsstring) :
  spaces indentUnit ->
  Spec.format indentUnit level code = [] <-> blank code = true.
Proof.
  intros Hu. rewrite <- nonWhiteSpace_blank.
  rewrite <- (nonWhiteSpace_format level code Hu). split.
  - intros ->. reflexivity.
  - intros Hnws.
    pose proof (format_noBlankLine level Hu code) as Hnb.
    unfold noBlankLine, linesOf in Hnb.
    destruct (Spec.format indentUnit level code) as [|c out] eqn:E;
      [reflexivity|].
    exfalso.
    apply nonWhiteSpace_blank in Hnws.
    pose proof (split_not_nil LF (c :: out)) as Hne.
    pose proof (join_split LF (c :: out)) as Hjoin.
    destruct (split LF (c :: out)) as [|first others]; [congruence|].
    simpl in Hnb. apply andb_true_iff in Hnb as [Hfirst _].
    apply negb_true_iff in Hfirst.
    assert (Hall : blank first = true).
    { unfold blank in *. rewrite <- Hjoin in Hnws.
      destruct others as [|second others].
      - exact Hnws.
      - change (join [LF] (first :: second :: others))
          with (first ++ LF :: join [LF] (second :: others)) in Hnws.
        rewrite forallb_app in Hnws. apply andb_true_iff in Hnws as [H _].
        exact H. }
    congruence.
Qed.

Lemma families_nil_iff (code : jsstring) :
  Forall (fun format => format code = [] <-> blank code = true) families.
Proof.
  apply family_cases.
  - rewrite formatJavaScript_spec. apply format_nil_iff, two_spaces.
  - rewrite formatJava_spec. apply format_nil_iff, four_spaces.
  - rewrite formatPython_spec. apply format_nil_iff, four_spaces.
  - rewrite formatC_spec. apply format_nil_iff, four_spaces.
Qed.

(** X2. The formatted text is empty exactly when the input consists of
    white space only (the empty input included). *)
Theorem formatted_empty_iff_blank (code : jsstring) :
  Forall (fun format => format code = [] <-> blank code = true) families.
Proof.
  apply family_cases.
  - rewrite formatJavaScript_spec. apply format_nil_iff, two_spaces.
  - rewrite formatJava_spec. apply format_nil_iff, four_spaces.
  - rewrite formatPython_spec. apply format_nil_iff, four_spaces.
  - rewrite formatC_spec. apply format_nil_iff, four_spaces.
Qed.

End FormatterMore.

Section FormatterComposition.
Import JS Formatter Spec Observe.

Lemma format_after_format (indentUnit indentUnit' : jsstring)
  (level level' : jsstring -> nat) (code : jsstring) :
  spaces indentUnit' ->
  Spec.format indentUnit level (Spec.format indentUnit' level' code)
  = Spec.format indentUnit level code.
Proof.
  intros Hu. unfold Spec.format at 1.
  rewrite (survivingLines_format level' Hu). reflexivity.
Qed.

Lemma after_any_family (indentUnit : jsstring) (level : jsstring -> nat)
  (code : jsstring) :
  Forall (fun g => Spec.format indentUnit level (g code)
                   = Spec.format indentUnit level code) families.
Proof.
  apply family_cases.
  - rewrite formatJavaScript_spec. apply format_after_format, two_spaces.
  - rewrite formatJava_spec. apply format_after_format, four_spaces.
  - rewrite formatPython_spec. apply format_after_format, four_spaces.
  - rewrite formatC_spec. apply format_after_format, four_spaces.
Qed.

(** X3. A formatting function applied to the output of any of the four
    gives what it gives on the original text: the earlier pass leaves no
    trace. *)
Theorem last_formatter_wins (code : jsstring) :
  Forall (fun f => Forall (fun g => f (g code) = f code) families) families.
Proof.
  apply family_cases.
  - eapply Forall_impl; [|apply (after_any_family (js "  ") braceLevel code)].
    intros g Hg. rewrite !formatJavaScript_spec. exact Hg.
  - eapply Forall_impl; [|apply (after_any_family (js "    ") braceLevel code)].
    intros g Hg. rewrite !formatJava_spec. exact Hg.
  - eapply Forall_impl; [|apply (after_any_family (js "    ") colonLevel code)].
    intros g Hg. rewrite !formatPython_spec. exact Hg.
  - eapply Forall_impl; [|apply (after_any_family (js "    ") braceLevel code)].
    intros g Hg. rewrite !formatC_spec. exact Hg.
Qed.

Lemma lines_kept (indentUnit : jsstring) (level : jsstring -> nat)
  (code : jsstring) :
  spaces indentUnit ->
  map trim (linesOf (Spec.format indentUnit level code)) = survivingLines code
  /\ length (linesOf (Spec.format indentUnit level code))
     = length (filter (fun line => negb (blank line)) (split LF code)).
Proof.
  intros Hu. rewrite (linesOf_format level Hu).
  pose proof (survivingLines_clean code) as Hclean.
  split.
  - rewrite map_map. rewrite (map_ext_in _ (fun line => line)), map_id;
      [reflexivity|].
    intros line Hin. rewrite Forall_forall in Hclean.
    apply (prefixed_trim level Hu), Hclean, Hin.
  - rewrite length_map. unfold survivingLines.
    clear Hclean. induction (split LF code) as [|x l IH]; [reflexivity|].
    simpl.
    assert (Hx : isEmpty (trim x) = blank x).
    { destruct (blank x) eqn:Eb.
      - apply nonWhiteSpace_blank in Eb. rewrite <- nonWhiteSpace_trim in Eb.
        destruct (trim x) as [|c t] eqn:Et; [reflexivity|].
        pose proof (trim_head x Et) as Hc.
        unfold nonWhiteSpace in Eb. simpl in Eb. rewrite Hc in Eb. discriminate.
      - destruct (trim x) as [|c t] eqn:Et; [|reflexivity].
        assert (Hb : blank x = true).
        { apply nonWhiteSpace_blank. rewrite <- nonWhiteSpace_trim, Et.
          reflexivity. }
        congruence. }
    rewrite Hx. destruct (blank x); simpl; rewrite IH; reflexivity.
Qed.

End FormatterComposition.

Section FormatterLines.
Import JS Formatter Spec Observe.

(** X4. The output has one line for each line of the input that is not
    blank, in the same order, and each output line trimmed is the input
    line trimmed: formatting never merges, splits, reorders or rewrites
    lines. *)
Theorem lines_preserved (code : jsstring) :
  Forall (fun format =>
            map trim (linesOf (format code)) = survivingLines code
            /\ length (linesOf (format code))
               = length (filter (fun line => negb (blank line)) (split LF code)))
    families.
Proof.
  apply family_cases.
  - rewrite formatJavaScript_spec. apply lines_kept, two_spaces.
  - rewrite formatJava_spec. apply lines_kept, four_spaces.
  - rewrite formatPython_spec. apply lines_kept, four_spaces.
  - rewrite formatC_spec. apply lines_kept, four_spaces.
Qed.

Lemma split_Forall (P : N -> Prop) (sep : N) (s : jsstring) :
  Forall P s -> Forall (Forall P) (split sep s).
Proof.
  induction 1 as [|c s Hc Hs IH]; simpl.
  - repeat constructor.
  - destruct (N.eqb c sep).
    + constructor; [constructor | assumption].
    + destruct (split sep s) as [|piece pieces].
      * repeat constructor. assumption.
      * inversion IH; subst. constructor; [constructor|]; assumption.
Qed.

Lemma survivingLines_Forall (P : N -> Prop) (code : jsstring) :
  Forall P code -> Forall (Forall P) (survivingLines code).
Proof.
  intros H. unfold survivingLines.
  apply Forall_forall. intros line Hin.
  apply filter_In in Hin as [Hin _].
  apply in_map_iff in Hin as (raw & <- & Hraw).
  apply trim_Forall.
  pose proof (split_Forall LF H) as Hs. rewrite Forall_forall in Hs.
  apply Hs, Hraw.
Qed.

Lemma format_level_zero (indentUnit : jsstring) (level : jsstring -> nat)
  (code : jsstring) :
  Forall (fun line => level line = 0) (survivingLines code) ->
  Spec.format indentUnit level code = trimmedOnly code.
Proof.
  intros H. unfold Spec.format, trimmedOnly. f_equal.
  induction H as [|line lines Hline _ IH]; [reflexivity|].
  simpl. rewrite IH. unfold prefixed at 1. rewrite Hline. reflexivity.
Qed.

Lemma count_absent (c : N) (code : jsstring) :
  ~ In c code -> Forall (fun line => count c line = 0) (survivingLines code).
Proof.
  intros Hc.
  assert (H : Forall (fun d => d <> c) code).
  { apply Forall_forall. intros d Hd ->. auto. }
  pose proof (survivingLines_Forall H) as Hl.
  eapply Forall_impl; [|exact Hl].
  intros line Hline. unfold count. apply count_occ_not_In.
  rewrite Forall_forall in Hline. intros Hin. apply (Hline c Hin). reflexivity.
Qed.

(** X5. A text without an opening brace is only trimmed by the brace-depth
    functions, and a text without a colon is only trimmed by
    [formatPython]: the lines are trimmed, the blank ones dropped, and no
    line is indented. *)
Theorem nothing_to_indent (code : jsstring) :
  (~ In LBRACE code ->
   formatJavaScript code = trimmedOnly code
   /\ formatJava code = trimmedOnly code
   /\ formatC code = trimmedOnly code)
  /\ (~ In COLON code -> formatPython code = trimmedOnly code).
Proof.
  split.
  - intros Hb.
    assert (H0 : Forall (fun line => braceLevel line = 0) (survivingLines code)).
    { eapply Forall_impl; [|apply (@count_absent LBRACE code Hb)].
      intros line Hline. unfold braceLevel. rewrite Hline. lia. }
    rewrite formatJavaScript_spec, formatJava_spec, formatC_spec.
    repeat split; apply format_level_zero, H0.
  - intros Hc. rewrite formatPython_spec. apply format_level_zero.
    apply (@count_absent COLON code Hc).
Qed.

Lemma nothing_to_indent_witness :
  ~ In LBRACE (js "  int x;  ")
  /\ ~ In COLON (js "  int x;  ")
  /\ formatC (js "  int x;  ") = trimmedOnly (js "  int x;  ")
  /\ formatPython (js "  int x;  ") = trimmedOnly (js "  int x;  ").
Proof.
  assert (Hb : ~ In LBRACE (js "  int x;  ")).
  { vm_compute. intuition discriminate. }
  assert (Hc : ~ In COLON (js "  int x;  ")).
  { vm_compute. intuition discriminate. }
  split; [exact Hb|]. split; [exact Hc|]. split.
  - apply (proj1 (nothing_to_indent (js "  int x;  ")) Hb).
  - apply (proj2 (nothing_to_indent (js "  int x;  ")) Hc).
Defined.

End FormatterLines.

Section ExtensionFacts.
Import JS Formatter.

Variable toLowerCase : jsstring -> jsstring.






End ExtensionFacts.

Section ExtensionExamples.
Import JS Formatter.


End ExtensionExamples.

(** * Further properties of the ingester *)

Section IngesterMore.
Import JS Formatter Spec Observe.

Variable toLowerCase : jsstring -> jsstring.

(** The text a formatting call evaluates to. *)
Lemma zipLoop_formatted (entries : list (jsstring * ZipObject))
  (files records : list FileInfo) :
  zipLoop toLowerCase entries files = Some (Normal records) ->
  exists added,
    records = files ++ added
    /\ Forall (fun r => call (getFormatter toLowerCase (name r)) (content r)
                        = Some (Normal (formatted r))) added.
Proof.
  revert files. induction entries as [|[key zipFile] entries IH]; intros files H.
  - simpl in H. injection H as <-. exists []. rewrite app_nil_r.
    split; constructor.
  - simpl in H. destruct (dir zipFile); simpl in H.
    + apply IH, H.
    + destruct (async_string zipFile) as [text|e]; [|discriminate].
      destruct (call (getFormatter toLowerCase (basename key)) text)
        as [[result|e]|] eqn:Ec; try discriminate.
      destruct (IH _ H) as (added & -> & Hall).
      exists (mkFileInfo (basename key) text key result :: added).
      rewrite <- app_assoc. split; [reflexivity|].
      constructor; [exact Ec | exact Hall].
Qed.

Lemma formatCode_formatted (file : File) (records : list FileInfo) :
  formatCode toLowerCase file = Some (Normal records) ->
  Forall (fun r => call (getFormatter toLowerCase (name r)) (content r)
                   = Some (Normal (formatted r))) records.
Proof.
  intros H. unfold formatCode in H.
  destruct (endsWith (js ".zip") (file_name file)).
  - destruct (loadAsync file) as [entries|e]; [|discriminate].
    destruct (zipLoop toLowerCase entries []) as [[files|e]|] eqn:E;
      try discriminate.
    injection H as <-.
    destruct (zipLoop_formatted _ _ E) as (added & -> & Hall). exact Hall.
  - destruct (file_text file) as [text|e]; [|discriminate].
    destruct (call (getFormatter toLowerCase (file_name file)) text)
      as [[result|e]|] eqn:Ec; try discriminate.
    injection H as <-. constructor; [exact Ec | constructor].
Qed.

Lemma assoc_In (A : Type) (key : jsstring) (l : list (jsstring * A)) (v : A) :
  Obj.assoc key l = Some v -> In v (map snd l).
Proof.
  induction l as [|[k w] l IH]; simpl; [discriminate|].
  destruct (JS.eqb k key).
  - intros [= ->]. left. reflexivity.
  - intros H. right. apply IH, H.
Qed.

Lemma formatters_families (ext : jsstring) (f : jsstring -> jsstring) :
  Obj.get formatters ext = Obj.Own f -> In f families.
Proof.
  unfold Obj.get. destruct (Obj.assoc ext formatters) as [g|] eqn:E.
  - intros [= ->]. apply assoc_In in E. unfold families.
    simpl in E. simpl. tauto.
  - destruct (Obj.assoc ext Obj.prototype_properties); discriminate.
Qed.

Lemma call_nonWhiteSpace (filename code : jsstring) (v : Formatted) :
  call (getFormatter toLowerCase filename) code = Some (Normal v) ->
  nonWhiteSpace (textOf v) = nonWhiteSpace code.
Proof.
  unfold getFormatter.
  destruct (Obj.get formatters (extension toLowerCase filename)) as [f|p|] eqn:E;
    simpl.
  - intros [= <-]. simpl.
    pose proof (families_nonWhiteSpace code) as Hall.
    rewrite Forall_forall in Hall. apply Hall.
    eapply formatters_families, E.
  - destruct p; try discriminate. intros [= <-]. reflexivity.
  - intros [= <-]. reflexivity.
Qed.

(** X7. Whatever goes wrong with an archive, the caller sees one error:
    [formatCode] on a name ending in [.zip] throws nothing but
    [Failed to process ZIP file]; it does so when the archive cannot be
    read, and it returns no list when the text of any file entry cannot be
    read. *)
Theorem zip_failures_uniform (file : File) :
  endsWith (js ".zip") (file_name file) = true ->
  (forall e,
     formatCode toLowerCase file = Some (Throw e) ->
     e = ErrorMsg (js "Failed to process ZIP file"))
  /\ (forall e,
        loadAsync file = Throw e ->
        formatCode toLowerCase file
        = Some (Throw (ErrorMsg (js "Failed to process ZIP file"))))
  /\ (forall entries key zipFile e records,
        loadAsync file = Normal entries ->
        In (key, zipFile) entries ->
        dir zipFile = false ->
        async_string zipFile = Throw e ->
        formatCode toLowerCase file <> Some (Normal records)).
Proof.
  intros Hzip. unfold formatCode. rewrite Hzip. split; [|split].
  - intros e.
    destruct (match loadAsync file with
              | Normal entries => zipLoop toLowerCase entries []
              | Throw e0 => Some (Throw e0)
              end) as [[files|e0]|]; congruence.
  - intros e ->. reflexivity.
  - intros entries key zipFile e records -> Hin Hdir Hthrow.
    destruct (zipLoop toLowerCase entries []) as [[files|e0]|] eqn:E;
      try discriminate.
    intros [= ->].
    destruct (zipLoop_records _ _ _ E) as (added & _ & _ & Hc & _).
    assert (Hf : In (key, zipFile) (filter isFile entries)).
    { apply filter_In. split; [exact Hin|].
      unfold isFile. simpl. rewrite Hdir. reflexivity. }
    apply (in_map (fun entry => async_string (snd entry))) in Hf.
    rewrite <- Hc in Hf. simpl in Hf. rewrite Hthrow in Hf.
    apply in_map_iff in Hf as (r & Hr & _). discriminate.
Qed.

(** X8. Every record [formatCode] returns keeps the raw text in [content]
    and holds in [formatted] what the routine selected by its [name]
    returns on that text; the two differ in white space only. *)
Theorem records_formatted_by_name (file : File) (records : list FileInfo) :
  formatCode toLowerCase file = Some (Normal records) ->
  Forall (fun r =>
            call (getFormatter toLowerCase (name r)) (content r)
            = Some (Normal (formatted r))
            /\ nonWhiteSpace (textOf (formatted r)) = nonWhiteSpace (content r))
    records.
Proof.
  intros H. pose proof (formatCode_formatted _ H) as Hall.
  eapply Forall_impl; [|exact Hall].
  intros r Hr. split; [exact Hr|]. eapply call_nonWhiteSpace, Hr.
Qed.

End IngesterMore.

(** * Further properties of the documentation generator *)

Section ObjectFacts.
Import JS ReadmeGenerator Observe.

Variable A : Type.

Lemma hasOwn_assoc (key : jsstring) (props : list (jsstring * A)) :
  hasOwn key props = false <-> Obj.assoc key props = None.
Proof.
  induction props as [|[k w] props IH]; simpl; [tauto|].
  destruct (JS.eqb k key); simpl; [split; discriminate | exact IH].
Qed.

Lemma assoc_replace_same (key : jsstring) (v : A) (props : list (jsstring * A)) :
  hasOwn key props = true -> Obj.assoc key (replace key v props) = Some v.
Proof.
  induction props as [|[k w] props IH]; simpl; [discriminate|].
  destruct (JS.eqb k key) eqn:E; simpl; rewrite E; [reflexivity | exact IH].
Qed.

Lemma assoc_replace_other (key key' : jsstring) (v : A)
  (props : list (jsstring * A)) :
  key <> key' ->
  Obj.assoc key' (replace key v props) = Obj.assoc key' props.
Proof.
  intros Hne. induction props as [|[k w] props IH]; simpl; [reflexivity|].
  destruct (JS.eqb k key) eqn:E; simpl.
  - apply eqb_eq in E. subst k.
    destruct (JS.eqb key key') eqn:E'; [|reflexivity].
    apply eqb_eq in E'. contradiction.
  - destruct (JS.eqb k key'); [reflexivity | exact IH].
Qed.

Lemma assoc_insertIndex_same (i : N) (key : jsstring) (v : A)
  (props : list (jsstring * A)) :
  hasOwn key props = false ->
  Obj.assoc key (insertIndex i key v props) = Some v.
Proof.
  induction props as [|[k w] props IH]; simpl.
  - rewrite eqb_refl. reflexivity.
  - intros H. apply orb_false_iff in H as [Hk Hrest].
    destruct (arrayIndex k) as [j|]; [destruct (N.ltb j i)|]; simpl;
      rewrite ?Hk, ?eqb_refl; auto.
Qed.

Lemma assoc_insertIndex_other (i : N) (key key' : jsstring) (v : A)
  (props : list (jsstring * A)) :
  key <> key' ->
  Obj.assoc key' (insertIndex i key v props) = Obj.assoc key' props.
Proof.
  intros Hne. apply eqb_neq in Hne.
  induction props as [|[k w] props IH]; simpl.
  - rewrite Hne. reflexivity.
  - destruct (arrayIndex k) as [j|]; [destruct (N.ltb j i)|]; simpl;
      rewrite ?Hne; try reflexivity.
    rewrite IH. reflexivity.
Qed.

Lemma assoc_app (key : jsstring) (props more : list (jsstring * A)) :
  Obj.assoc key (props ++ more)
  = match Obj.assoc key props with
    | Some v => Some v
    | None => Obj.assoc key more
    end.
Proof.
  induction props as [|[k w] props IH]; simpl; [reflexivity|].
  destruct (JS.eqb k key); [reflexivity | exact IH].
Qed.

(** Reading back what was written. *)
Lemma assoc_set_same (key : jsstring) (v : A) (props : list (jsstring * A)) :
  Obj.assoc key (set key v props) = Some v.
Proof.
  unfold set. destruct (hasOwn key props) eqn:E.
  - apply assoc_replace_same, E.
  - destruct (arrayIndex key).
    + apply assoc_insertIndex_same, E.
    + rewrite assoc_app. apply hasOwn_assoc in E. rewrite E. simpl.
      rewrite eqb_refl. reflexivity.
Qed.

(** A write leaves the other properties as they were. *)
Lemma assoc_set_other (key key' : jsstring) (v : A) (props : list (jsstring * A)) :
  key <> key' -> Obj.assoc key' (set key v props) = Obj.assoc key' props.
Proof.
  intros Hne. unfold set. destruct (hasOwn key props).
  - apply assoc_replace_other, Hne.
  - destruct (arrayIndex key).
    + apply assoc_insertIndex_other, Hne.
    + rewrite assoc_app. destruct (Obj.assoc key' props); [reflexivity|].
      simpl. apply eqb_neq in Hne. rewrite Hne. reflexivity.
Qed.

Lemma hasOwn_In (key : jsstring) (props : list (jsstring * A)) :
  hasOwn key props = true <-> In key (map fst props).
Proof.
  induction props as [|[k w] props IH]; simpl; [split; [discriminate|tauto]|].
  rewrite orb_true_iff, IH, eqb_eq. tauto.
Qed.

Lemma keys_replace (key : jsstring) (v : A) (props : list (jsstring * A)) :
  map fst (replace key v props) = map fst props.
Proof.
  induction props as [|[k w] props IH]; simpl; [reflexivity|].
  destruct (JS.eqb k key); simpl; [reflexivity | rewrite IH; reflexivity].
Qed.

Lemma keys_insertIndex (i : N) (key : jsstring) (v : A)
  (props : list (jsstring * A)) :
  exists before after,
    props = before ++ after
    /\ insertIndex i key v props = before ++ (key, v) :: after.
Proof.
  induction props as [|[k w] props (before & after & Hp & Hi)]; simpl.
  - exists [], []. split; reflexivity.
  - destruct (arrayIndex k) as [j|]; [destruct (N.ltb j i)|].
    + exists ((k, w) :: before), after. simpl. rewrite Hi, <- Hp.
      split; reflexivity.
    + exists [], ((k, w) :: props). split; reflexivity.
    + exists [], ((k, w) :: props). split; reflexivity.
Qed.

(** A write puts the new property at one place and keeps the others in
    their order. *)
Lemma set_shape (key : jsstring) (v : A) (props : list (jsstring * A)) :
  (hasOwn key props = true /\ map fst (set key v props) = map fst props)
  \/ (hasOwn key props = false
      /\ exists before after,
           props = before ++ after
           /\ set key v props = before ++ (key, v) :: after).
Proof.
  unfold set. destruct (hasOwn key props) eqn:E.
  - left. split; [reflexivity | apply keys_replace].
  - right. split; [reflexivity|]. destruct (arrayIndex key).
    + apply keys_insertIndex.
    + exists props, []. rewrite app_nil_r. split; reflexivity.
Qed.

Lemma set_NoDup (key : jsstring) (v : A) (props : list (jsstring * A)) :
  NoDup (map fst props) -> NoDup (map fst (set key v props)).
Proof.
  intros Hnd. destruct (set_shape key v props) as [[_ ->]|(Hown & b & a & Hp & ->)];
    [exact Hnd|].
  rewrite map_app. simpl.
  apply (NoDup_Add (Add_app key (map fst b) (map fst a))).
  rewrite <- map_app, <- Hp. split; [exact Hnd|].
  intros Hin. apply hasOwn_In in Hin. congruence.
Qed.

End ObjectFacts.

Section StatisticsFacts.
Import JS ReadmeGenerator Observe.

Lemma total_app (a b : list (jsstring * N)) :
  total (a ++ b) = (total a + total b)%N.
Proof.
  induction a as [|[k n] a IH]; simpl; [reflexivity|]. rewrite IH. lia.
Qed.

Lemma total_replace (key : jsstring) (v : N) (stats : list (jsstring * N)) :
  hasOwn key stats = true ->
  (total (replace key v stats) + countOf key stats = total stats + v)%N.
Proof.
  unfold countOf. induction stats as [|[k n] stats IH]; simpl; [discriminate|].
  destruct (JS.eqb k key); simpl; [lia|].
  intros H. specialize (IH H). lia.
Qed.

Lemma total_set (key : jsstring) (v : N) (stats : list (jsstring * N)) :
  (total (set key v stats) + countOf key stats = total stats + v)%N.
Proof.
  destruct (set_shape key v stats) as [[Hown _]|(Hown & b & a & Hp & Hs)].
  - unfold set. rewrite Hown. apply total_replace, Hown.
  - rewrite Hs. unfold countOf.
    apply hasOwn_assoc in Hown. rewrite Hown.
    rewrite Hp, !total_app. simpl. lia.
Qed.

Lemma countOf_set (key label : jsstring) (v : N) (stats : list (jsstring * N)) :
  countOf label (set key v stats)
  = if JS.eqb key label then v else countOf label stats.
Proof.
  unfold countOf. destruct (JS.eqb key label) eqn:E.
  - apply eqb_eq in E. subst. rewrite assoc_set_same. reflexivity.
  - apply eqb_neq in E. rewrite (assoc_set_other v stats E). reflexivity.
Qed.

Section WithLowerCase.

Variable toLowerCase : jsstring -> jsstring.

Lemma analyzeCodebaseFrom_counts (files : list FileInfo)
  (stats stats' : list (jsstring * N)) :
  analyzeCodebaseFrom toLowerCase stats files = Some stats' ->
  (forall label,
     countOf label stats'
     = (countOf label stats
        + N.of_nat (length (filter (hasLabel toLowerCase label) files)))%N)
  /\ total stats' = (total stats + N.of_nat (length files))%N
  /\ (NoDup (map fst stats) -> NoDup (map fst stats'))
  /\ (Forall (fun entry => (1 <= snd entry)%N) stats ->
      Forall (fun entry => (1 <= snd entry)%N) stats').
Proof.
  revert stats. induction files as [|f files IH]; intros stats H; simpl in H.
  - injection H as <-. simpl. repeat split; auto; try lia.
  - destruct (getFileType toLowerCase (name f)) as [type| | |] eqn:Et;
      try discriminate.
    destruct (isPrototypeName type); [discriminate|].
    destruct (IH _ H) as (Hcount & Htotal & Hnd & Hpos).
    split; [|split; [|split]].
    + intros label. rewrite Hcount, countOf_set.
      simpl. unfold hasLabel at 2. rewrite Et.
      fold (countOf type stats).
      destruct (JS.eqb type label) eqn:E; simpl; [|lia].
      apply eqb_eq in E. subst. lia.
    + rewrite Htotal.
      pose proof (total_set type (countOf type stats + 1) stats) as Hs.
      fold (countOf type stats). simpl length. lia.
    + intros H0. apply Hnd, set_NoDup, H0.
    + intros H0. apply Hpos. fold (countOf type stats).
      assert (Hv : (1 <= countOf type stats + 1)%N) by lia.
      revert Hv. generalize (countOf type stats + 1)%N as v. intros v Hv.
      destruct (set_shape type v stats)
        as [[Hown _]|(Hown & b & a & Hp & ->)].
      * unfold set. rewrite Hown. clear - H0 Hv.
        induction H0 as [|[k n] stats Hk Hrest IH]; simpl; [constructor|].
        destruct (JS.eqb k type); constructor; simpl in *; auto.
      * subst stats. apply Forall_app in H0 as [Hb Ha].
        apply Forall_app. split; [exact Hb|].
        constructor; [exact Hv | exact Ha].
Qed.

(** X9. When [analyzeCodebase] returns the statistics, the count under
    every label is the number of files of that type, no label is listed
    twice, no listed count is zero, and the counts add up to the number of
    files. *)
Theorem statistics_count_files (files : list FileInfo)
  (stats : list (jsstring * N)) :
  analyzeCodebase toLowerCase files = Some stats ->
  (forall label,
     countOf label stats
     = N.of_nat (length (filter (hasLabel toLowerCase label) files)))
  /\ total stats = N.of_nat (length files)
  /\ NoDup (map fst stats)
  /\ Forall (fun entry => (1 <= snd entry)%N) stats.
Proof.
  intros H. destruct (analyzeCodebaseFrom_counts _ _ H) as (Hc & Ht & Hnd & Hpos).
  split; [|split; [|split]].
  - intros label. rewrite Hc. reflexivity.
  - rewrite Ht. reflexivity.
  - apply Hnd. constructor.
  - apply Hpos. constructor.
Qed.

End WithLowerCase.

End StatisticsFacts.

Section SubstringFacts.
Import JS.

Lemma startsWith_iff (p s : jsstring) :
  startsWith p s = true <-> exists b, s = p ++ b.
Proof.
  revert s. induction p as [|c p IH]; intros s; simpl.
  - split; [intros _; exists s; reflexivity | reflexivity].
  - destruct s as [|d s].
    + split; [discriminate | intros (b & H); discriminate].
    + rewrite andb_true_iff, N.eqb_eq, IH. split.
      * intros (-> & b & ->). exists b. reflexivity.
      * intros (b & [= -> ->]). split; [reflexivity | exists b; reflexivity].
Qed.

Lemma includes_iff (p s : jsstring) :
  includes p s = true <-> exists a b, s = a ++ p ++ b.
Proof.
  induction s as [|d s IH].
  - simpl. rewrite orb_false_r, startsWith_iff. split.
    + intros (b & H). exists [], b. exact H.
    + intros (a & b & H). destruct a; [exists b; exact H | discriminate].
  - change (includes p (d :: s))
      with (startsWith p (d :: s) || includes p s).
    rewrite orb_true_iff, startsWith_iff, IH. split.
    + intros [(b & H)|(a & b & ->)].
      * exists [], b. exact H.
      * exists (d :: a), b. reflexivity.
    + intros (a & b & H). destruct a as [|e a].
      * left. exists b. exact H.
      * right. injection H as _ ->. exists a, b. reflexivity.
Qed.

Lemma prefix_avoids (c : N) (p b x rest : jsstring) :
  p ++ b = x ++ c :: rest -> ~ In c p -> exists b', x = p ++ b'.
Proof.
  revert x. induction p as [|d p IH]; intros x H Hc.
  - exists x. reflexivity.
  - destruct x as [|e x]; simpl in H.
    + injection H as -> _. exfalso. apply Hc. left. reflexivity.
    + injection H as -> H. destruct (IH x H) as (b' & ->).
      * intros Hin. apply Hc. right. exact Hin.
      * exists b'. reflexivity.
Qed.

(** An occurrence of [p] in [x ++ c :: rest], where [c] is not in [p], lies
    in [x] or in [rest]. *)
Lemma occurrence_avoids (c : N) (a p b x rest : jsstring) :
  a ++ p ++ b = x ++ c :: rest -> ~ In c p ->
  (exists b', x = a ++ p ++ b') \/ (exists a', rest = a' ++ p ++ b).
Proof.
  revert x. induction a as [|d a IH]; intros x H Hc.
  - left. simpl in *. eapply prefix_avoids; eassumption.
  - destruct x as [|e x]; simpl in H.
    + injection H as _ H. right. exists a. symmetry. exact H.
    + injection H as -> H. destruct (IH x H Hc) as [(b' & ->)|Hr].
      * left. exists b'. reflexivity.
      * right. exact Hr.
Qed.

Lemma join_In (sep x : jsstring) (l : list jsstring) :
  In x l -> exists a b, join sep l = a ++ x ++ b.
Proof.
  induction l as [|y l IH]; [intros []|].
  intros [->|Hin].
  - destruct l as [|z l].
    + exists [], []. simpl. rewrite app_nil_r. reflexivity.
    + exists [], (sep ++ join sep (z :: l)). reflexivity.
  - destruct (IH Hin) as (a & b & Hj).
    destruct l as [|z l]; [destruct Hin|].
    exists (y ++ sep ++ a), b.
    change (join sep (y :: z :: l)) with (y ++ sep ++ join sep (z :: l)).
    rewrite Hj, <- !app_assoc. reflexivity.
Qed.

(** A word without the separator occurs in the joined text exactly when it
    occurs in one of the pieces. *)
Lemma includes_join (c : N) (p : jsstring) (l : list jsstring) :
  ~ In c p -> p <> [] ->
  includes p (join [c] l) = true <-> exists x, In x l /\ includes p x = true.
Proof.
  intros Hc Hp. split.
  - induction l as [|x l IH].
    + simpl. destruct p; [congruence | discriminate].
    + destruct l as [|y l].
      * intros H. exists x. split; [left; reflexivity | exact H].
      * change (join [c] (x :: y :: l)) with (x ++ c :: join [c] (y :: l)).
        intros H. apply includes_iff in H as (a & b & H).
        symmetry in H.
        destruct (@occurrence_avoids c a p b x _ H Hc) as [(b' & Hx)|(a' & Hr)].
        -- exists x. split; [left; reflexivity|].
           apply includes_iff. exists a, b'. exact Hx.
        -- destruct IH as (z & Hz & Hi).
           { apply includes_iff. exists a', b. exact Hr. }
           exists z. split; [right; exact Hz | exact Hi].
  - intros (x & Hin & Hi). apply includes_iff in Hi as (a & b & ->).
    destruct (@join_In [c] _ _ Hin) as (a' & b' & ->).
    apply includes_iff. exists (a' ++ a), (b ++ b').
    rewrite <- !app_assoc. reflexivity.
Qed.

End SubstringFacts.

Section SelectFacts.
Import ReadmeSpec.

Variable A : Type.

(** With distinct labels, a label is selected exactly when its flag is
    set. *)
Lemma select_nth (d : A) (l : list A) :
  NoDup l ->
  forall (flags : list bool) (i : nat),
    length flags = length l -> i < length l ->
    In (nth i l d) (select flags l) <-> nth i flags false = true.
Proof.
  induction 1 as [|x l Hx Hl IH]; intros flags i Hlen Hi; [simpl in Hi; lia|].
  destruct flags as [|b flags]; [discriminate|].
  simpl in Hlen, Hi. destruct i as [|i]; simpl.
  - destruct b.
    + split; [reflexivity | intros _; left; reflexivity].
    + split; [|discriminate]. intros Hin. exfalso.
      apply Hx. eapply select_In, Hin.
  - assert (Hne : x <> nth i l d).
    { intros ->. apply Hx, nth_In. lia. }
    rewrite <- (IH flags i) by lia.
    destruct b; simpl; [|tauto]. tauto.
Qed.

End SelectFacts.

Section DetectionFacts.
Import JS ReadmeGenerator ReadmeSpec.

Variable toLowerCase : jsstring -> jsstring.

Lemma detect_flag (files : list FileInfo) (i : nat) :
  i < 7 ->
  In (nth i labels []) (detectFrameworks toLowerCase files)
  <-> nth i (signatures toLowerCase files) false = true.
Proof.
  intros Hi. rewrite detectFrameworks_select.
  apply (select_nth [] labels_NoDup); [reflexivity | exact Hi].
Qed.

Lemma allContent_includes (word : jsstring) (files : list FileInfo) :
  ~ In SPACE word -> word <> [] ->
  includes word (join (js " ") (map (fun f => toLowerCase (content f)) files))
  = true
  <-> exists f, In f files /\ includes word (toLowerCase (content f)) = true.
Proof.
  intros Hs Hne.
  change (js " ") with [SPACE]. rewrite (@includes_join SPACE word _ Hs Hne). split.
  - intros (x & Hin & Hi). apply in_map_iff in Hin as (f & <- & Hf).
    exists f. split; assumption.
  - intros (f & Hf & Hi). exists (toLowerCase (content f)).
    split; [|exact Hi].
    apply (in_map (fun f => toLowerCase (content f))), Hf.
Qed.

Ltac no_space := vm_compute; intuition discriminate.

(** X10. The four content signatures are exact and per file: [Django] is
    reported exactly when the lowercased content of some file contains
    [django], and likewise [Flask], [Express.js] and [Spring Boot] for
    [flask], [express] and [spring-boot]; a word cut across two files is
    never a match. *)
Theorem content_signatures_per_file (files : list FileInfo) :
  (In (js "Django") (detectFrameworks toLowerCase files)
   <-> exists f, In f files
                 /\ includes (js "django") (toLowerCase (content f)) = true)
  /\ (In (js "Flask") (detectFrameworks toLowerCase files)
      <-> exists f, In f files
                    /\ includes (js "flask") (toLowerCase (content f)) = true)
  /\ (In (js "Express.js") (detectFrameworks toLowerCase files)
      <-> exists f, In f files
                    /\ includes (js "express") (toLowerCase (content f)) = true)
  /\ (In (js "Spring Boot") (detectFrameworks toLowerCase files)
      <-> exists f, In f files
                    /\ includes (js "spring-boot") (toLowerCase (content f)) = true).
Proof.
  split; [|split; [|split]].
  - rewrite (detect_flag files (i := 3)) by lia.
    apply allContent_includes; [no_space | discriminate].
  - rewrite (detect_flag files (i := 4)) by lia.
    apply allContent_includes; [no_space | discriminate].
  - rewrite (detect_flag files (i := 5)) by lia.
    apply allContent_includes; [no_space | discriminate].
  - rewrite (detect_flag files (i := 6)) by lia.
    apply allContent_includes; [no_space | discriminate].
Qed.

Lemma packageJson_includes (word : jsstring) (files : list FileInfo) :
  word <> [] ->
  includes word
    match find isPackageJson files with
    | Some f => content f
    | None => []
    end = true
  <-> exists pkg, find isPackageJson files = Some pkg
                  /\ includes word (content pkg) = true.
Proof.
  intros Hne. destruct (find isPackageJson files) as [pkg|].
  - split.
    + intros H. exists pkg. split; [reflexivity | exact H].
    + intros (pkg' & [= <-] & H). exact H.
  - split.
    + destruct word; [congruence | discriminate].
    + intros (pkg & Hp & _). discriminate.
Qed.

(** X11. The three [package.json] signatures read one file only, the first
    record whose name is exactly [package.json]: [React], [Vue.js] and
    [Angular] are reported exactly when that record exists and its content,
    as it is written, contains ["react"], ["vue"] or ["@angular/core"] with
    the quotes; the contents of the other files never count. *)
Theorem package_signatures_first_file (files : list FileInfo) :
  (In (js "React") (detectFrameworks toLowerCase files)
   <-> exists pkg, find isPackageJson files = Some pkg
                   /\ includes (quoted (js "react")) (content pkg) = true)
  /\ (In (js "Vue.js") (detectFrameworks toLowerCase files)
      <-> exists pkg, find isPackageJson files = Some pkg
                      /\ includes (quoted (js "vue")) (content pkg) = true)
  /\ (In (js "Angular") (detectFrameworks toLowerCase files)
      <-> exists pkg, find isPackageJson files = Some pkg
                      /\ includes (quoted (js "@angular/core")) (content pkg)
                         = true).
Proof.
  split; [|split].
  - rewrite (detect_flag files (i := 0)) by lia.
    apply packageJson_includes. discriminate.
  - rewrite (detect_flag files (i := 1)) by lia.
    apply packageJson_includes. discriminate.
  - rewrite (detect_flag files (i := 2)) by lia.
    apply packageJson_includes. discriminate.
Qed.

End DetectionFacts.

Section TreeFacts.
Import JS ReadmeGenerator Observe.

Lemma insertPath_lookup (leaf : jsstring -> Value) (parts : list jsstring) :
  forall current tree',
    parts <> [] ->
    insertPath current parts leaf = Some (Normal tree') ->
    lookupPath tree' parts = Some (leaf (last parts [])).
Proof.
  induction parts as [|part rest IH]; intros current tree' Hne H; [congruence|].
  simpl in H. destruct (isPrototypeName part); [discriminate|].
  destruct current as [s|n|p|props]; try discriminate.
  destruct rest as [|r rest].
  - injection H as <-. simpl. rewrite assoc_set_same. reflexivity.
  - remember (r :: rest) as parts' eqn:Ep.
    destruct (insertPath
                match Obj.assoc part props with
                | Some v => if truthy v then v else VObj []
                | None => VObj []
                end parts' leaf) as [[child'|e]|] eqn:E; try discriminate.
    injection H as <-.
    change (lookupPath (VObj (set part child' props)) (part :: parts'))
      with (match Obj.assoc part (set part child' props) with
            | Some child => lookupPath child parts'
            | None => None
            end).
    rewrite assoc_set_same.
    rewrite (IH _ _ ltac:(subst; discriminate) E).
    subst parts'. reflexivity.
Qed.

(** A write along one path leaves what is found along a path that parts
    ways with it. *)
Lemma insertPath_elsewhere (leaf : jsstring -> Value) (q : list jsstring) :
  forall current tree' p,
    diverge p q ->
    insertPath current q leaf = Some (Normal tree') ->
    lookupPath tree' p = lookupPath current p.
Proof.
  induction q as [|part rest IH]; intros current tree' p Hd H.
  - destruct Hd as (c & a & b & p' & q' & _ & Hq & _).
    destruct c; discriminate.
  - simpl in H. destruct (isPrototypeName part); [discriminate|].
    destruct current as [s|n|pp|props]; try discriminate.
    destruct Hd as (c & a & b & p' & q' & -> & Hq & Hab).
    destruct c as [|c0 c]; simpl in Hq.
    + injection Hq as -> ->.
      assert (Hset : forall v, lookupPath (VObj (set b v props)) (a :: p')
                               = lookupPath (VObj props) (a :: p')).
      { intros v. simpl.
        rewrite (assoc_set_other v props (not_eq_sym Hab)). reflexivity. }
      destruct q' as [|r q'].
      * injection H as <-. apply Hset.
      * destruct (insertPath
                    match Obj.assoc b props with
                    | Some v => if truthy v then v else VObj []
                    | None => VObj []
                    end (r :: q') leaf) as [[child'|e]|]; try discriminate.
        injection H as <-. apply Hset.
    + injection Hq as -> ->.
      destruct (c ++ b :: q') as [|r rest'] eqn:Er.
      { destruct c; discriminate. }
      destruct (insertPath
                  match Obj.assoc c0 props with
                  | Some v => if truthy v then v else VObj []
                  | None => VObj []
                  end (r :: rest') leaf) as [[child'|e]|] eqn:E;
        try discriminate.
      injection H as <-. simpl. rewrite assoc_set_same.
      assert (Hd : diverge (c ++ a :: p') (r :: rest')).
      { rewrite <- Er. exists c, a, b, p', q'. auto. }
      rewrite (IH _ _ _ Hd E).
      destruct (Obj.assoc c0 props) as [v|] eqn:Ev.
      * destruct (truthy v) eqn:Et; [reflexivity|].
        destruct v as [s|n|pp|props']; try discriminate.
        -- destruct c; reflexivity.
        -- destruct c; reflexivity.
      * destruct c; reflexivity.
Qed.

End TreeFacts.

Section TreeClaims.
Import JS ReadmeGenerator Observe.

Variable toLowerCase : jsstring -> jsstring.

Lemma buildFileTreeFrom_elsewhere (files : list FileInfo) :
  forall tree tree' p,
    buildFileTreeFrom toLowerCase tree files = Some (Normal tree') ->
    Forall (fun f => diverge p (segments f)) files ->
    lookupPath tree' p = lookupPath tree p.
Proof.
  induction files as [|f files IH]; intros tree tree' p H Hd; simpl in H.
  - injection H as <-. reflexivity.
  - inversion Hd as [|? ? Hf Hrest]; subst.
    destruct (insertPath tree (split SLASH (path f)) _) as [[tree1|e]|] eqn:E;
      try discriminate.
    rewrite (IH _ _ _ H Hrest).
    eapply insertPath_elsewhere; eassumption.
Qed.

(** X12. When no path of the list runs through another one (and no two are
    equal), every file is in the tree [buildFileTree] returns: following the
    segments of its path from the root leads to a leaf that holds the type
    of the last segment and the length of the content. *)
Theorem every_file_in_tree (files : list FileInfo) (tree : Value) :
  buildFileTree toLowerCase files = Some (Normal tree) ->
  ForallOrdPairs (fun f g => diverge (segments f) (segments g)) files ->
  Forall (fun f => lookupPath tree (segments f) = Some (leafOf toLowerCase f))
    files.
Proof.
  unfold buildFileTree. generalize (VObj []) as start.
  induction files as [|f files IH]; intros start H Hpairs; [constructor|].
  simpl in H. inversion Hpairs as [|? ? Hf Hrest]; subst.
  destruct (insertPath start (split SLASH (path f)) _) as [[tree1|e]|] eqn:E;
    try discriminate.
  constructor.
  - erewrite buildFileTreeFrom_elsewhere; [|exact H|exact Hf].
    unfold segments.
    rewrite (@insertPath_lookup _ _ _ _ (split_not_nil SLASH (path f)) E).
    reflexivity.
  - apply (IH _ H Hrest).
Qed.

End TreeClaims.

Section ExcerptFacts.
Import JS ReadmeGenerator.

Lemma join_firstn (sep : N) (l : list jsstring) :
  forall n,
    exists rest,
      join [sep] l = join [sep] (firstn (S n) l) ++ rest
      /\ (rest = [] <-> length l <= S n)
      /\ (rest = [] \/ exists more, rest = sep :: more).
Proof.
  induction l as [|x l IH]; intros n.
  - exists []. simpl. repeat split; auto; lia.
  - destruct l as [|y l].
    + exists []. simpl. rewrite firstn_nil, app_nil_r.
      repeat split; auto; lia.
    + destruct n as [|n].
      * exists (sep :: join [sep] (y :: l)). split; [reflexivity|]. split.
        -- simpl. split; [discriminate | lia].
        -- right. eexists. reflexivity.
      * destruct (IH n) as (rest & Hj & Hr & Hs).
        exists rest. split; [|split; [|exact Hs]].
        -- change (join [sep] (x :: y :: l))
             with (x ++ sep :: join [sep] (y :: l)).
           rewrite Hj.
           change (firstn (S (S n)) (x :: y :: l))
             with (x :: firstn (S n) (y :: l)).
           change (firstn (S n) (y :: l)) with (y :: firstn n l).
           change (join [sep] (x :: y :: firstn n l))
             with (x ++ sep :: join [sep] (y :: firstn n l)).
           rewrite <- app_assoc. reflexivity.
        -- rewrite Hr. simpl. lia.
Qed.

(** X13. The excerpt in the main entry point section is the start of the
    main file's content, cut before a newline: all of the content when it
    has at most 10 lines, and followed by a line [...] exactly when
    something was cut. *)
Theorem excerpt_is_a_prefix (mainFile : FileInfo) :
  exists excerpt rest,
    content mainFile = excerpt ++ rest
    /\ (rest = [] <-> length (split LF (content mainFile)) <= 10)
    /\ (rest = [] \/ exists more, rest = LF :: more)
    /\ mainEntrySection (Some mainFile)
       = js "The main entry point is `" ++ path mainFile ++ js "`:"
         ++ [LF; LF] ++ js "```" ++ last (split DOT (name mainFile)) [] ++ [LF]
         ++ excerpt
         ++ match rest with [] => [] | _ :: _ => LF :: js "..." end
         ++ [LF] ++ js "```".
Proof.
  destruct (join_firstn LF (split LF (content mainFile)) 9)
    as (rest & Hj & Hr & Hs).
  rewrite join_split in Hj.
  exists (join [LF] (firstn 10 (split LF (content mainFile)))), rest.
  split; [exact Hj|]. split; [exact Hr|]. split; [exact Hs|].
  unfold mainEntrySection.
  rewrite (@pop_last jsstring [] _ (split_not_nil DOT (name mainFile))).
  destruct (Nat.ltb_spec 10 (length (split LF (content mainFile)))) as [H|H].
  - destruct rest as [|c more].
    + exfalso. assert (H' : length (split LF (content mainFile)) <= 10)
        by (apply Hr; reflexivity). lia.
    + reflexivity.
  - apply Hr in H. subst rest. reflexivity.
Qed.

End ExcerptFacts.

(** * Properties of [processFile] *)

Section AppFacts.
Import JS Formatter Observe App.

Lemma fromEntries_assoc_from (A : Type) (key : jsstring)
  (entries : list (jsstring * A)) :
  forall obj,
    Obj.assoc key
      (fold_left (fun obj entry => ReadmeGenerator.set (fst entry) (snd entry) obj)
         entries obj)
    = match Obj.assoc key (rev entries) with
      | Some v => Some v
      | None => Obj.assoc key obj
      end.
Proof.
  induction entries as [|[k v] entries IH]; intros obj; [reflexivity|].
  simpl fold_left. rewrite IH. simpl rev. rewrite assoc_app.
  destruct (Obj.assoc key (rev entries)); [reflexivity|].
  simpl. destruct (JS.eqb k key) eqn:E.
  - apply eqb_eq in E. subst. apply assoc_set_same.
  - apply eqb_neq in E. apply assoc_set_other, E.
Qed.

Lemma fromEntries_NoDup_from (A : Type) (entries : list (jsstring * A)) :
  forall obj,
    NoDup (map fst obj) ->
    NoDup (map fst
             (fold_left
                (fun obj entry => ReadmeGenerator.set (fst entry) (snd entry) obj)
                entries obj)).
Proof.
  induction entries as [|[k v] entries IH]; intros obj H; [exact H|].
  simpl. apply IH, set_NoDup, H.
Qed.

Section WithLowerCase.

Variable toLowerCase : jsstring -> jsstring.

(** X14. For a single upload whose routine is a function [f] of the file,
    [processFile] ends with one formatted entry under the upload's name:
    the text [f] returns, or the raw content when [f] returns the empty
    string.  So a file of white space only, which the four formatting
    functions turn into the empty string, is shown as it was uploaded. *)
Theorem single_upload_shown (file : File) (text : jsstring)
  (f : jsstring -> jsstring) (state : State) :
  endsWith (js ".zip") (file_name file) = false ->
  file_text file = Normal text ->
  getFormatter toLowerCase (file_name file) = Fn f ->
  processFile toLowerCase file state
  = Some (mkState false
            (Some (mkResult None
                     (Some [(file_name file,
                             Str match f text with [] => text | s => s end)])
                     None)))
  /\ (In f families -> Spec.blank text = true ->
      match f text with [] => text | s => s end = text).
Proof.
  intros Hzip Htext Hf. split.
  - unfold processFile, processFileBody, formatCode.
    rewrite Hzip, Htext, Hf. simpl. unfold shown. simpl.
    destruct (f text); reflexivity.
  - intros Hin Hblank.
    pose proof (families_nil_iff text) as Hall.
    rewrite Forall_forall in Hall.
    rewrite (proj2 (Hall f Hin) Hblank). reflexivity.
Qed.

Lemma formatCode_zip_paths (file : File)
  (entries : list (jsstring * ZipObject)) (files : list FileInfo) :
  endsWith (js ".zip") (file_name file) = true ->
  loadAsync file = Normal entries ->
  formatCode toLowerCase file = Some (Normal files) ->
  map path files = map fst (filter Spec.isFile entries).
Proof.
  intros Hzip Hload H. unfold formatCode in H. rewrite Hzip, Hload in H.
  destruct (zipLoop toLowerCase entries []) as [[records|e]|] eqn:E;
    try discriminate.
  injection H as <-.
  destruct (zipLoop_records _ _ _ E) as (added & -> & Hp & _). exact Hp.
Qed.

Lemma NoDup_map_filter (A B : Type) (g : A -> B) (keep : A -> bool)
  (l : list A) :
  NoDup (map g l) -> NoDup (map g (filter keep l)).
Proof.
  induction l as [|x l IH]; simpl; intros H; [constructor|].
  inversion H as [|? ? Hx Hl]; subst.
  destruct (keep x); simpl; [|apply IH, Hl].
  constructor; [|apply IH, Hl].
  intros Hin. apply Hx. apply in_map_iff in Hin as (y & Hy & Hin).
  apply filter_In in Hin as [Hin _]. rewrite <- Hy. apply in_map, Hin.
Qed.

Lemma assoc_NoDup_In (A : Type) (key : jsstring) (v : A)
  (l : list (jsstring * A)) :
  NoDup (map fst l) -> In (key, v) l -> Obj.assoc key l = Some v.
Proof.
  induction l as [|[k w] l IH]; simpl; intros Hnd Hin; [destruct Hin|].
  inversion Hnd as [|? ? Hk Hl]; subst.
  destruct Hin as [[= -> ->]|Hin].
  - rewrite eqb_refl. reflexivity.
  - destruct (JS.eqb k key) eqn:E; [|apply IH; assumption].
    apply eqb_eq in E. subst. exfalso. apply Hk.
    apply (in_map fst) in Hin. exact Hin.
Qed.

Lemma assoc_Some_In (A : Type) (key : jsstring) (l : list (jsstring * A)) :
  Obj.assoc key l <> None <-> In key (map fst l).
Proof.
  rewrite <- hasOwn_In. split.
  - intros H. destruct (ReadmeGenerator.hasOwn key l) eqn:E; [reflexivity|].
    apply hasOwn_assoc in E. contradiction.
  - intros H Hnone. apply hasOwn_assoc in Hnone. congruence.
Qed.

(** X15. After an archive is processed, the formatted texts are keyed by
    path: every record [formatCode] returned has its text under its path,
    no other key is present, each path is there once, and there are as many
    texts as records (the keys of the archive's listing being distinct, as
    the keys of an object are). *)
Theorem archive_shown_by_path (file : File)
  (entries : list (jsstring * ZipObject)) (r : Result) :
  endsWith (js ".zip") (file_name file) = true ->
  loadAsync file = Normal entries ->
  NoDup (map fst entries) ->
  processFileBody toLowerCase file = Some (Normal r) ->
  exists files text shownTexts,
    formatCode toLowerCase file = Some (Normal files)
    /\ ReadmeGenerator.generateReadme toLowerCase (map asFileInfo files)
       = Some (Normal text)
    /\ r = mkResult (Some text) (Some shownTexts) None
    /\ Forall (fun f => Obj.assoc (path f) shownTexts = Some (shown f)) files
    /\ (forall key, In key (map fst shownTexts) <-> In key (map path files))
    /\ NoDup (map fst shownTexts)
    /\ length shownTexts = length files.
Proof.
  intros Hzip Hload Hkeys H. unfold processFileBody in H. rewrite Hzip in H.
  destruct (formatCode toLowerCase file) as [[files|e]|] eqn:Ef;
    try discriminate.
  destruct (ReadmeGenerator.generateReadme toLowerCase (map asFileInfo files))
    as [[text|e]|] eqn:Eg; try discriminate.
  injection H as <-.
  set (pairs := map (fun f => (path f, shown f)) files).
  exists files, text, (fromEntries pairs).
  split; [reflexivity|]. split; [exact Eg|]. split; [reflexivity|].
  assert (Hpaths : NoDup (map path files)).
  { rewrite (@formatCode_zip_paths file entries files Hzip Hload Ef).
    apply NoDup_map_filter, Hkeys. }
  assert (Hfst : map fst pairs = map path files).
  { unfold pairs. rewrite map_map. reflexivity. }
  assert (Hassoc : forall key,
             Obj.assoc key (fromEntries pairs) = Obj.assoc key (rev pairs)).
  { intros key. unfold fromEntries. rewrite fromEntries_assoc_from.
    destruct (Obj.assoc key (rev pairs)); reflexivity. }
  assert (Hnd : NoDup (map fst (fromEntries pairs))).
  { unfold fromEntries. apply fromEntries_NoDup_from. constructor. }
  assert (Hsame : forall key,
             In key (map fst (fromEntries pairs)) <-> In key (map path files)).
  { intros key. rewrite <- Hfst, <- !assoc_Some_In, Hassoc, !assoc_Some_In.
    rewrite map_rev, <- in_rev. tauto. }
  split; [|split; [exact Hsame|split; [exact Hnd|]]].
  - apply Forall_forall. intros f Hf. rewrite Hassoc.
    apply assoc_NoDup_In.
    + rewrite map_rev, Hfst. apply NoDup_rev, Hpaths.
    + apply -> in_rev. unfold pairs.
      apply (in_map (fun f => (path f, shown f))), Hf.
  - rewrite <- (length_map fst (fromEntries pairs)).
    rewrite <- (length_map path files).
    apply Nat.le_antisymm; apply NoDup_incl_length; try assumption;
      intros key Hin; apply Hsame, Hin.
Qed.

(** X16. A failure leaves no partial result.  When [formatCode] throws,
    and also when every file of an archive was formatted and only the
    generation of the README throws, [processFile] ends with the message
    [Error processing file] alone: the formatted texts are lost.  In every
    case it ends with the loading flag cleared. *)
Theorem processFile_failures (file : File) (state : State) :
  (forall e,
     formatCode toLowerCase file = Some (Throw e) ->
     processFile toLowerCase file state
     = Some (mkState false (Some errorResult)))
  /\ (forall files e,
        formatCode toLowerCase file = Some (Normal files) ->
        endsWith (js ".zip") (file_name file) = true ->
        ReadmeGenerator.generateReadme toLowerCase (map asFileInfo files)
        = Some (Throw e) ->
        processFile toLowerCase file state
        = Some (mkState false (Some errorResult)))
  /\ (forall state',
        processFile toLowerCase file state = Some state' ->
        isLoading state' = false).
Proof.
  unfold processFile, processFileBody. split; [|split].
  - intros e ->. reflexivity.
  - intros files e -> -> ->. reflexivity.
  - intros state'.
    destruct (formatCode toLowerCase file) as [[files|e]|]; try discriminate.
    + destruct (endsWith (js ".zip") (file_name file)).
      * destruct (ReadmeGenerator.generateReadme toLowerCase
                    (map asFileInfo files)) as [[text|e]|]; try discriminate;
          intros [= <-]; reflexivity.
      * destruct files; intros [= <-]; reflexivity.
    + intros [= <-]. reflexivity.
Qed.

End WithLowerCase.

End AppFacts.

(** * [generateReadme] on ordinary archives *)

Section SoundTrees.
Import JS ReadmeGenerator Observe.

Lemma Value_nested_ind (P : Value -> Prop) :
  (forall s, P (VStr s)) ->
  (forall n, P (VNum n)) ->
  (forall p, P (VBuiltin p)) ->
  (forall props, Forall (fun entry => P (snd entry)) props -> P (VObj props)) ->
  forall v, P v.
Proof.
  intros Hs Hn Hb Ho.
  fix IH 1. intros [s|n|p|props]; [apply Hs | apply Hn | apply Hb |].
  apply Ho. induction props as [|[k c] props IHp]; constructor.
  - apply IH.
  - exact IHp.
Qed.

Lemma assoc_In_pair (A : Type) (key : jsstring) (l : list (jsstring * A)) (v : A) :
  Obj.assoc key l = Some v -> In (key, v) l.
Proof.
  induction l as [|[k w] l IH]; simpl; [discriminate|].
  destruct (JS.eqb k key) eqn:E.
  - intros [= ->]. apply eqb_eq in E. subst. left. reflexivity.
  - intros H. right. apply IH, H.
Qed.

Lemma replace_Forall (A : Type) (P : jsstring * A -> Prop) (key : jsstring)
  (v : A) (props : list (jsstring * A)) :
  Forall P props -> P (key, v) -> Forall P (replace key v props).
Proof.
  intros H Hv. induction H as [|[k w] props Hk Hrest IH]; simpl; [constructor|].
  destruct (JS.eqb k key) eqn:E.
  - apply eqb_eq in E. subst. constructor; assumption.
  - constructor; assumption.
Qed.

Lemma set_Forall (A : Type) (P : jsstring * A -> Prop) (key : jsstring)
  (v : A) (props : list (jsstring * A)) :
  Forall P props -> P (key, v) -> Forall P (set key v props).
Proof.
  intros H Hv.
  destruct (set_shape key v props) as [[Hown _]|(_ & b & a & -> & ->)].
  - unfold set. rewrite Hown. apply replace_Forall; assumption.
  - apply Forall_app in H as [Hb Ha]. apply Forall_app. split; [exact Hb|].
    constructor; assumption.
Qed.

Lemma hasOwn_set (A : Type) (k key : jsstring) (v : A)
  (props : list (jsstring * A)) :
  hasOwn k props = true -> hasOwn k (set key v props) = true.
Proof.
  intros H.
  destruct (hasOwn k (set key v props)) eqn:E; [reflexivity|].
  apply hasOwn_assoc in E.
  destruct (JS.eqb key k) eqn:Ek.
  - apply eqb_eq in Ek. subst. rewrite assoc_set_same in E. discriminate.
  - apply eqb_neq in Ek. rewrite (assoc_set_other v props Ek) in E.
    apply hasOwn_assoc in E. congruence.
Qed.

Lemma Sound_set (key : jsstring) (child : Value)
  (props : list (jsstring * Value)) :
  Sound (VObj props) -> Sound child ->
  Sound (VObj (set key child props))
  /\ (allObjects props -> allObjects (set key child props)).
Proof.
  intros Hs Hc. inversion Hs as [? Hall Hcoupled]; subst.
  inversion Hc as [cprops Hcall Hccoupled]; subst.
  assert (Hobj : allObjects props -> allObjects (set key (VObj cprops) props)).
  { intros Hao. apply set_Forall; [exact Hao|]. simpl. eauto. }
  split; [|exact Hobj].
  constructor.
  - apply set_Forall; [exact Hall|]. left. simpl. eauto.
  - destruct Hcoupled as [Hao|Hown]; [left; apply Hobj, Hao|].
    right. apply hasOwn_set, Hown.
Qed.

Lemma Sound_empty : Sound (VObj []).
Proof. constructor; [constructor | left; constructor]. Qed.

Lemma leaf_Sound (s : jsstring) (n : N) :
  s <> [] -> Sound (VObj [(js "type", VStr s); (js "size", VNum n)]).
Proof.
  intros Hs. constructor.
  - constructor; [|constructor; [|constructor]].
    + right. left. simpl. eauto.
    + right. right. simpl. eauto.
  - right. reflexivity.
Qed.

Lemma ordinarySegments_cons (part : jsstring) (rest : list jsstring) :
  ordinarySegments (part :: rest) = true ->
  isPrototypeName part = false
  /\ (rest <> [] ->
      part <> js "type" /\ part <> js "size" /\ ordinarySegments rest = true).
Proof.
  unfold ordinarySegments. intros H.
  apply andb_true_iff in H as [Hproto Hdirs].
  simpl in Hproto. apply andb_true_iff in Hproto as [Hp Hrest].
  apply negb_true_iff in Hp. split; [exact Hp|].
  intros Hne. destruct rest as [|r rest]; [congruence|].
  change (removelast (part :: r :: rest)) with (part :: removelast (r :: rest))
    in Hdirs.
  simpl in Hdirs. apply andb_true_iff in Hdirs as [Hpart Hdirs].
  apply andb_true_iff in Hpart as [Ht Hs].
  apply negb_true_iff in Ht, Hs. apply eqb_neq in Ht, Hs.
  repeat split; try assumption.
  apply andb_true_iff. split; assumption.
Qed.

(** A walk along ordinary segments from a sound node throws nothing and
    leaves a sound node. *)
Lemma insertPath_Sound (leaf : jsstring -> Value) (parts : list jsstring) :
  forall current,
    parts <> [] ->
    ordinarySegments parts = true ->
    Sound (leaf (last parts [])) ->
    Sound current ->
    exists tree',
      insertPath current parts leaf = Some (Normal tree')
      /\ Sound tree'
      /\ (forall props, current = VObj props -> allObjects props ->
          exists props', tree' = VObj props' /\ allObjects props').
Proof.
  induction parts as [|part rest IH]; intros current Hne Hord Hleaf Hs;
    [congruence|].
  destruct (ordinarySegments_cons _ _ Hord) as (Hproto & Hrest).
  simpl. rewrite Hproto.
  inversion Hs as [props Hall Hcoupled]; subst.
  destruct rest as [|r rest].
  - simpl in Hleaf.
    destruct (Sound_set part Hs Hleaf) as (Hs' & Hobj).
    eexists. split; [reflexivity|]. split; [exact Hs'|].
    intros props0 [= <-] H. eexists. split; [reflexivity | apply Hobj, H].
  - destruct Hrest as (Htype & Hsize & Hord'); [discriminate|].
    set (child := match Obj.assoc part props with
                  | Some v => if truthy v then v else VObj []
                  | None => VObj []
                  end).
    assert (Hchild : Sound child).
    { unfold child. destruct (Obj.assoc part props) as [v|] eqn:Ea;
        [|apply Sound_empty].
      apply assoc_In_pair in Ea. rewrite Forall_forall in Hall.
      specialize (Hall _ Ea). simpl in Hall.
      destruct Hall as [(ps & -> & Hv)|[(Hk & _)|(Hk & _)]];
        [exact Hv | contradiction | contradiction]. }
    destruct (IH child ltac:(discriminate) Hord' Hleaf Hchild)
      as (child' & Hi & Hs' & _).
    rewrite Hi.
    destruct (Sound_set part Hs Hs') as (Hs'' & Hobj).
    eexists. split; [reflexivity|]. split; [exact Hs''|].
    intros props0 [= <-] H. eexists. split; [reflexivity | apply Hobj, H].
Qed.

(** One round of the [forEach] of [generateTreeMarkdown]. *)
Lemma generateTreeMarkdown_cons (name : jsstring) (value : Value)
  (entries : list (jsstring * Value)) (prefix : jsstring) :
  generateTreeMarkdown (VObj ((name, value) :: entries)) prefix
  = let isLast := match entries with [] => true | _ => false end in
    let connector := if isLast then connectorLast else connectorMid in
    let newPrefix := prefix ++ (if isLast then prefixLast else prefixMid) in
    let hasType :=
      match typeOf value with Some t => truthy t | None => false end in
    match
      (if hasType then
         match typeOf value with
         | Some t =>
             match toString t with
             | Some s => Some (js " (" ++ s ++ js ")" ++ [LF])
             | None => None
             end
         | None => None
         end
       else Some [LF]),
      (if hasType then Some []
       else match value with
            | VObj _ => generateTreeMarkdown value newPrefix
            | _ => None
            end),
      generateTreeMarkdown (VObj entries) prefix
    with
    | Some label, Some below, Some others =>
        Some (prefix ++ connector ++ name ++ label ++ below ++ others)
    | _, _, _ => None
    end.
Proof. reflexivity. Qed.

(** A sound node whose properties are all objects is rendered. *)
Lemma generateTreeMarkdown_Sound (tree : Value) :
  forall props prefix,
    tree = VObj props -> Sound tree -> allObjects props ->
    exists markdown, generateTreeMarkdown tree prefix = Some markdown.
Proof.
  induction tree as [s|n|p|props0 IH] using Value_nested_ind;
    intros props prefix Heq Hs Hobj; try discriminate.
  injection Heq as ->. inversion Hs as [? Hall _]; subst. clear Hs.
  revert prefix.
  induction props as [|[name value] entries IHe]; intros prefix;
    [eexists; reflexivity|].
  inversion IH as [|? ? IHvalue IHrest]; subst.
  inversion Hall as [|? ? Hvalue Hallrest]; subst.
  inversion Hobj as [|? ? (ps & Hps) Hobjrest]; subst.
  simpl in Hps, Hvalue, IHvalue. subst value.
  rewrite generateTreeMarkdown_cons. cbv zeta.
  destruct (IHe IHrest Hobjrest Hallrest prefix) as (others & ->).
  destruct Hvalue as [(ps' & Hv & Hsv)|[(_ & s & Hv & _)|(_ & n & Hv)]];
    try discriminate.
  inversion Hsv as [? Hchildren Hcoupled]; subst.
  unfold typeOf.
  destruct (Obj.assoc (js "type") ps) as [t|] eqn:Et.
  - apply assoc_In_pair in Et. rewrite Forall_forall in Hchildren.
    specialize (Hchildren _ Et). simpl in Hchildren.
    destruct Hchildren as [(tp & -> & _)|[(_ & s & -> & Hne)|(Hk & _)]].
    + eexists. reflexivity.
    + destruct s; [congruence|]. eexists. reflexivity.
    + discriminate.
  - destruct Hcoupled as [Hobjs|Hown].
    + destruct (IHvalue ps (prefix ++ (if match entries with
                                           | [] => true
                                           | _ :: _ => false
                                           end then prefixLast else prefixMid))
                  eq_refl Hsv Hobjs) as (below & ->).
      eexists. reflexivity.
    + apply hasOwn_assoc in Et. congruence.
Qed.

End SoundTrees.

Section OrdinaryArchives.
Import JS ReadmeGenerator Observe.

Variable toLowerCase : jsstring -> jsstring.

(** A file type that is a string is one of the labels of [typeMap] or
    [Plain text]: not empty, and not the name of an inherited property. *)
Lemma getFileType_label (filename label : jsstring) :
  getFileType toLowerCase filename = VStr label ->
  label <> [] /\ isPrototypeName label = false.
Proof.
  unfold getFileType, Obj.get.
  destruct (Obj.assoc (Formatter.extension toLowerCase filename) typeMap)
    as [l|] eqn:E.
  - intros [= <-]. apply assoc_In in E. simpl in E.
    repeat (destruct E as [<-|E]; [split; [discriminate | reflexivity]|]).
    destruct E.
  - destruct (Obj.assoc _ Obj.prototype_properties); [discriminate|].
    intros [= <-]. split; [discriminate | reflexivity].
Qed.

Lemma plainType_label (filename : jsstring) :
  plainType toLowerCase filename = true ->
  exists label,
    getFileType toLowerCase filename = VStr label
    /\ label <> [] /\ isPrototypeName label = false.
Proof.
  unfold plainType.
  destruct (getFileType toLowerCase filename) as [label| | |] eqn:E;
    try discriminate.
  intros _. exists label. split; [reflexivity|].
  eapply getFileType_label, E.
Qed.

Lemma buildFileTreeFrom_Sound (files : list FileInfo) :
  forall props,
    forallb (ordinary toLowerCase) files = true ->
    Sound (VObj props) -> allObjects props ->
    exists entries,
      buildFileTreeFrom toLowerCase (VObj props) files
      = Some (Normal (VObj entries))
      /\ Sound (VObj entries) /\ allObjects entries.
Proof.
  induction files as [|f files IH]; intros props Hord Hs Hobj.
  - exists props. split; [reflexivity | split; assumption].
  - simpl in Hord. apply andb_true_iff in Hord as [Hf Hrest].
    unfold ordinary in Hf.
    apply andb_true_iff in Hf as [Hf _].
    apply andb_true_iff in Hf as [Hsegs Hlast].
    destruct (@plainType_label _ Hlast) as (label & Hlabel & Hne & _).
    simpl.
    destruct (@insertPath_Sound
                (fun part =>
                   VObj [ (js "type", getFileType toLowerCase part);
                          (js "size", VNum (N.of_nat (length (content f)))) ])
                (split SLASH (path f)) (VObj props)
                (split_not_nil SLASH (path f)) Hsegs)
      as (tree1 & Hi & Hs1 & Hobj1); [|exact Hs|].
    + unfold segments in Hlabel. rewrite Hlabel. apply leaf_Sound, Hne.
    + rewrite Hi.
      destruct (Hobj1 props eq_refl Hobj) as (props1 & -> & Hobj1').
      apply (IH props1 Hrest Hs1 Hobj1').
Qed.

Lemma analyzeCodebaseFrom_ordinary (files : list FileInfo) :
  forall stats,
    forallb (ordinary toLowerCase) files = true ->
    exists stats', analyzeCodebaseFrom toLowerCase stats files = Some stats'.
Proof.
  induction files as [|f files IH]; intros stats Hord.
  - eexists. reflexivity.
  - simpl in Hord. apply andb_true_iff in Hord as [Hf Hrest].
    unfold ordinary in Hf. apply andb_true_iff in Hf as [_ Hname].
    destruct (@plainType_label _ Hname) as (label & Hlabel & _ & Hproto).
    simpl. rewrite Hlabel, Hproto. apply IH, Hrest.
Qed.

(** X17. [generateReadme] returns a text, and throws nothing, for every
    list of ordinary records: records whose path segments are not named
    like a property of [Object.prototype], whose directories are not named
    [type] or [size], and whose name and last path segment have an extension
    other than [constructor] and [__proto__]. *)
Theorem generateReadme_ordinary (files : list FileInfo) :
  forallb (ordinary toLowerCase) files = true ->
  exists text, generateReadme toLowerCase files = Some (Normal text).
Proof.
  intros Hord. unfold generateReadme, buildFileTree.
  destruct (@buildFileTreeFrom_Sound files [] Hord Sound_empty (Forall_nil _))
    as (entries & -> & Hs & Hobj).
  destruct (@analyzeCodebaseFrom_ordinary files [] Hord) as (stats & Hstats).
  unfold analyzeCodebase. rewrite Hstats.
  destruct (@generateTreeMarkdown_Sound _ entries (js "") eq_refl Hs Hobj)
    as (markdown & ->).
  eexists. reflexivity.
Qed.

End OrdinaryArchives.

Section TreeFailure.
Import JS ReadmeGenerator Observe.

Variable toLowerCase : jsstring -> jsstring.

(** X18. [generateReadme] throws a TypeError when a path runs through the
    [size] of a file that is already in the tree and is not empty: after a
    file [a], a path [a/size/x] makes the walk step from the leaf of [a]
    onto its size, a number, which cannot take the property [x]. *)
Theorem path_through_size_throws (a x text text' : jsstring)
  (name name' : jsstring) :
  ~ In SLASH a -> ~ In SLASH x ->
  isPrototypeName a = false -> isPrototypeName x = false ->
  text <> [] ->
  buildFileTree toLowerCase
    [ mkFileInfo name text a;
      mkFileInfo name' text' (a ++ js "/size/" ++ x) ]
  = Some (Throw TypeError)
  /\ generateReadme toLowerCase
       [ mkFileInfo name text a;
         mkFileInfo name' text' (a ++ js "/size/" ++ x) ]
     = Some (Throw TypeError).
Proof.
  intros Ha Hx Hpa Hpx Htext.
  assert (Hb : buildFileTree toLowerCase
                 [ mkFileInfo name text a;
                   mkFileInfo name' text' (a ++ js "/size/" ++ x) ]
               = Some (Throw TypeError)).
  { assert (Hsplit : split SLASH (a ++ js "/size/" ++ x) = [a; js "size"; x]).
    { change (a ++ js "/size/" ++ x)
        with (a ++ SLASH :: js "size" ++ SLASH :: x).
      rewrite (@split_app_sep SLASH a _ Ha). f_equal.
      rewrite (@split_app_sep SLASH (js "size") x)
        by (vm_compute; intuition discriminate).
      rewrite (@split_free SLASH x Hx). reflexivity. }
    unfold buildFileTree, buildFileTreeFrom.
    cbn [path content]. rewrite Hsplit, (@split_free SLASH a Ha).
    cbn [insertPath]. rewrite Hpa, Hpx.
    rewrite assoc_set_same.
    destruct text as [|c text]; [congruence|]. reflexivity. }
  split; [exact Hb|].
  unfold generateReadme. rewrite Hb. reflexivity.
Qed.

End TreeFailure.

(** * The further properties on the sample inputs *)

Section MoreExamples.
Import JS Formatter Observe.

Lemma zip_failures_uniform_witness :
  endsWith (js ".zip") (file_name Samples.broken_zip) = true
  /\ loadAsync Samples.broken_zip = Throw RangeError
  /\ formatCode Samples.lower Samples.broken_zip
     = Some (Throw (ErrorMsg (js "Failed to process ZIP file"))).
Proof.
  split; [reflexivity|]. split; [reflexivity|].
  apply (proj1 (proj2 (@zip_failures_uniform Samples.lower Samples.broken_zip
                         eq_refl)) RangeError).
  reflexivity.
Defined.

(** The keys of the sample archive's listing are distinct. *)
Lemma project_keys_distinct : NoDup (map fst Samples.project_entries).
Proof.
  vm_compute. repeat (constructor; [simpl; intuition discriminate|]).
  constructor.
Qed.

Lemma records_formatted_by_name_witness :
  formatCode Samples.lower Samples.project = Some (Normal Samples.project_records)
  /\ NoDup (map fst Samples.project_entries)
  /\ length Samples.project_records = 4
  /\ Forall (fun r =>
               call (getFormatter Samples.lower (name r)) (content r)
               = Some (Normal (formatted r))
               /\ nonWhiteSpace (textOf (formatted r))
                  = nonWhiteSpace (content r))
       Samples.project_records.
Proof.
  split; [reflexivity|]. split; [exact project_keys_distinct|].
  split; [reflexivity|].
  apply (@records_formatted_by_name Samples.lower Samples.project
           Samples.project_records).
  reflexivity.
Defined.

Lemma single_upload_shown_witness :
  getFormatter Samples.lower (file_name Samples.blank_py) = Fn formatPython
  /\ formatPython [SPACE; SPACE; LF; SPACE] = []
  /\ App.processFile Samples.lower Samples.blank_py (App.mkState false None)
     = Some (App.mkState false
               (Some (App.mkResult None
                        (Some [(js "empty.py", Str [SPACE; SPACE; LF; SPACE])])
                        None))).
Proof.
  split; [reflexivity|]. split; [reflexivity|].
  exact (proj1 (@single_upload_shown Samples.lower Samples.blank_py
                  [SPACE; SPACE; LF; SPACE] formatPython
                  (App.mkState false None) eq_refl eq_refl eq_refl)).
Defined.

Lemma archive_shown_by_path_witness :
  App.processFileBody Samples.lower Samples.project
  = Some (Normal Samples.project_result)
  /\ exists files text shownTexts,
       formatCode Samples.lower Samples.project = Some (Normal files)
       /\ ReadmeGenerator.generateReadme Samples.lower (map App.asFileInfo files)
          = Some (Normal text)
       /\ Samples.project_result = App.mkResult (Some text) (Some shownTexts) None
       /\ Forall (fun f => Obj.assoc (path f) shownTexts = Some (App.shown f))
            files
       /\ (forall key, In key (map fst shownTexts) <-> In key (map path files))
       /\ NoDup (map fst shownTexts)
       /\ length shownTexts = length files.
Proof.
  split; [vm_compute; reflexivity|].
  apply (@archive_shown_by_path Samples.lower Samples.project
           Samples.project_entries Samples.project_result
           eq_refl eq_refl).
  - exact project_keys_distinct.
  - vm_compute. reflexivity.
Defined.

Lemma processFile_failures_witness :
  formatCode Samples.lower Samples.size_trap
  = Some (Normal [ mkFileInfo (js "notes") (js "x") (js "notes") (Str (js "x"));
                   mkFileInfo (js "y") (js "") (js "notes/size/y") (Str (js "")) ])
  /\ ReadmeGenerator.generateReadme Samples.lower
       (map App.asFileInfo
          [ mkFileInfo (js "notes") (js "x") (js "notes") (Str (js "x"));
            mkFileInfo (js "y") (js "") (js "notes/size/y") (Str (js "")) ])
     = Some (Throw TypeError)
  /\ App.processFile Samples.lower Samples.size_trap (App.mkState false None)
     = Some (App.mkState false (Some App.errorResult)).
Proof.
  split; [reflexivity|]. split; [reflexivity|].
  apply (proj1 (proj2 (@processFile_failures Samples.lower Samples.size_trap
                         (App.mkState false None)))
           [ mkFileInfo (js "notes") (js "x") (js "notes") (Str (js "x"));
             mkFileInfo (js "y") (js "") (js "notes/size/y") (Str (js "")) ]
           TypeError);
    reflexivity.
Defined.

End MoreExamples.

Section ReadmeMoreExamples.
Import JS ReadmeGenerator Observe.

Lemma statistics_count_files_witness :
  analyzeCodebase Samples.lower Samples.files = Some Samples.files_stats
  /\ Samples.files_stats = [(js "Python", 2%N); (js "Markdown", 1%N)]
  /\ (forall label,
        countOf label Samples.files_stats
        = N.of_nat (length (filter (hasLabel Samples.lower label) Samples.files)))
  /\ total Samples.files_stats = N.of_nat (length Samples.files)
  /\ NoDup (map fst Samples.files_stats)
  /\ Forall (fun entry => (1 <= snd entry)%N) Samples.files_stats.
Proof.
  split; [reflexivity|]. split; [reflexivity|].
  apply (@statistics_count_files Samples.lower Samples.files Samples.files_stats).
  reflexivity.
Defined.

Lemma sample_paths_diverge :
  ForallOrdPairs (fun f g => diverge (segments f) (segments g)) Samples.files.
Proof.
  unfold Samples.files. repeat constructor.
  - exists [js "src"], (js "a.py"), (js "b.py"), [], [].
    repeat split. vm_compute. discriminate.
  - exists [], (js "src"), (js "README.md"), [js "a.py"], [].
    repeat split. vm_compute. discriminate.
  - exists [], (js "src"), (js "README.md"), [js "b.py"], [].
    repeat split. vm_compute. discriminate.
Defined.

Lemma every_file_in_tree_witness :
  buildFileTree Samples.lower Samples.files = Some (Normal Samples.files_tree)
  /\ Forall (fun f => lookupPath Samples.files_tree (segments f)
                      = Some (leafOf Samples.lower f))
       Samples.files.
Proof.
  split; [reflexivity|].
  apply (@every_file_in_tree Samples.lower Samples.files Samples.files_tree).
  - reflexivity.
  - exact sample_paths_diverge.
Defined.

Lemma generateReadme_ordinary_witness :
  forallb (ordinary Samples.lower) Samples.files = true
  /\ exists text, generateReadme Samples.lower Samples.files = Some (Normal text).
Proof.
  split; [reflexivity|].
  apply (@generateReadme_ordinary Samples.lower Samples.files).
  reflexivity.
Defined.

Lemma path_through_size_throws_witness :
  generateReadme Samples.lower
    [ mkFileInfo (js "notes") (js "x") (js "notes");
      mkFileInfo (js "y") (js "") (js "notes" ++ js "/size/" ++ js "y") ]
  = Some (Throw TypeError).
Proof.
  apply (@path_through_size_throws Samples.lower (js "notes") (js "y")
           (js "x") (js "") (js "notes") (js "y")).
  - vm_compute. intuition discriminate.
  - vm_compute. intuition discriminate.
  - reflexivity.
  - reflexivity.
  - discriminate.
Defined.

End ReadmeMoreExamples.
